(** * Interference reference model: a shallow embedding and its properties

    Embedding of [harness/reference_models/interference/interference.py].

    Conventions of the model.
    - Frequencies are carried in Hz.  Every band constant of the module is a
      whole number of Hz and so are the frequencies of the exchanged records,
      so frequencies are integers ([Z]); on such values the float
      arithmetic of the source (comparison, sum, difference, [np.arange]) is
      exact.
    - Every other Python float (dB values, gains, coordinates, heights,
      distances) is a real number ([R]); [np.log10] and [10**x] are the real
      logarithm and power.  The real logarithm stands for [np.log10] on
      positive arguments only: at 0 and below numpy answers [-inf] and
      [nan], which are no real numbers.  The statements about the value
      of a logarithm therefore take its argument positive: a positive
      reference bandwidth, a grant with low < high where its bandwidth is
      used (the mask loss and the blocking formula).
    - The collaborators imported by the module ([vincenty], [wf_itm],
      [wf_hybrid], [antenna], the terrain driver) are events of a small free
      monad: a program either returns, raises, or calls a collaborator and
      goes on with its answer.  A handler gives the answers. *)

From Stdlib Require Import ZArith Reals Lra Lia List String Bool.
Import ListNotations.

Local Open Scope Z_scope.

(** ** Python values the model needs *)

Inductive Exception : Type :=
| AssertionError (msg : string)
| ValueError (msg : string)
| KeyError
| AttributeError
| UnboundLocalError (var : string).

(** [class ProtectedEntityType(Enum)] *)
Inductive ProtectedEntityType : Type :=
| GWPZ_AREA
| PPA_AREA
| FSS_CO_CHANNEL
| FSS_BLOCKING
| ESC.

Definition ProtectedEntityType_eqb (a b : ProtectedEntityType) : bool :=
  match a, b with
  | GWPZ_AREA, GWPZ_AREA | PPA_AREA, PPA_AREA
  | FSS_CO_CHANNEL, FSS_CO_CHANNEL | FSS_BLOCKING, FSS_BLOCKING
  | ESC, ESC => true
  | _, _ => false
  end.

(** The objects that reach an [entity_type] slot, a dictionary subscript or
    an [==] of the module: a member of the enumeration, a pair of integers
    (the values of the distance table), or anything else, named by a
    string. *)
Inductive PyObj : Type :=
| EnumMember (t : ProtectedEntityType)
| IntPair (a b : Z)
| OtherObj (name : string).

(** Python's [==] on these objects.  [Enum] members compare by identity, so
    a member is never equal to a tuple. *)
Definition py_eq (x y : PyObj) : bool :=
  match x, y with
  | EnumMember a, EnumMember b => ProtectedEntityType_eqb a b
  | IntPair a b, IntPair c d => (a =? c) && (b =? d)
  | OtherObj s, OtherObj t => String.eqb s t
  | _, _ => false
  end.

(** Python's [is] against a member of the enumeration. *)
Definition py_is (x : PyObj) (t : ProtectedEntityType) : bool :=
  match x with
  | EnumMember a => ProtectedEntityType_eqb a t
  | _ => false
  end.

(** ** The named tuples *)

Module Grant.
Record CbsdGrantInformation : Type := mk {
  latitude : R;
  longitude : R;
  height_agl : R;
  indoor_deployment : bool;
  antenna_azimuth : R;
  antenna_gain : R;
  antenna_beamwidth : R;
  cbsd_category : string;
  max_eirp : R;
  low_frequency : Z;
  high_frequency : Z;
  is_managed_grant : bool
}.
End Grant.
Abbreviation CbsdGrantInformation := Grant.CbsdGrantInformation.

Module Constraint.
Record ProtectionConstraint : Type := mk {
  latitude : R;
  longitude : R;
  low_frequency : Z;
  high_frequency : Z;
  entity_type : PyObj
}.
End Constraint.
Abbreviation ProtectionConstraint := Constraint.ProtectionConstraint.

Module Fss.
Record FssProtectionPoint : Type := mk {
  latitude : R;
  longitude : R;
  height_agl : R;
  max_gain_dbi : R;
  pointing_azimuth : R;
  pointing_elevation : R
}.
End Fss.
Abbreviation FssProtectionPoint := Fss.FssProtectionPoint.

Module Esc.
Record EscInformation : Type := mk {
  antenna_height : R;
  antenna_azimuth : R;
  antenna_gain : R;
  antenna_pattern_gain : list R
}.
End Esc.
Abbreviation EscInformation := Esc.EscInformation.

(** [wf_itm._IncidenceAngles] and the part of a propagation result the
    module reads ([db_loss, incidence_angles, _ = ...]). *)
Record IncidenceAngles : Type := _IncidenceAngles {
  hor_cbsd : R;
  ver_cbsd : R;
  hor_rx : R;
  ver_rx : R
}.

Record PropagResult : Type := mkPropag {
  db_loss : R;
  incidence_angles : IncidenceAngles
}.

(** ** Collaborators and the program monad *)

Inductive extE : Type -> Type :=
| GeodesicDistanceBearing (lat1 lon1 lat2 lon2 : R) : extE (R * R * R)
| GetTerrainElevation (lat lon : R) : extE R
| CalcHybridPropagationLoss
    (lat_cbsd lon_cbsd height_cbsd lat_rx lon_rx height_rx : R)
    (cbsd_indoor : bool) (reliability : Z) (freq_mhz : R)
    (region : option string) : extE PropagResult
| CalcItmPropagationLoss
    (lat_cbsd lon_cbsd height_cbsd lat_rx lon_rx height_rx : R)
    (cbsd_indoor : bool) (reliability : Z) (freq_mhz : R) : extE PropagResult
| GetStandardAntennaGains (hor_dir ant_azimuth ant_beamwidth ant_gain : R)
    : extE R
| GetAntennaPatternGains (hor_dir ant_azimuth : R) (pattern_gain : list R)
    (ant_gain : R) : extE R
| GetFssAntennaGains (hor_dir ver_dir pointing_az pointing_elev max_gain : R)
    : extE R.

Inductive Prog (A : Type) : Type :=
| Ret (a : A)
| Raise (e : Exception)
| Vis (X : Type) (ev : extE X) (k : X -> Prog A).

Arguments Ret {A} a.
Arguments Raise {A} e.
Arguments Vis {A X} ev k.

Fixpoint bind {A B : Type} (p : Prog A) (f : A -> Prog B) : Prog B :=
  match p with
  | Ret a => f a
  | Raise e => Raise e
  | Vis ev k => Vis ev (fun x => bind (k x) f)
  end.

Definition call {X : Type} (ev : extE X) : Prog X := Vis ev Ret.

Notation "x <- p ;; q" := (bind p (fun x => q))
  (at level 61, p at next level, right associativity).
Notation "' pat <- p ;; q" := (bind p (fun x => match x with pat => q end))
  (at level 61, pat pattern, p at next level, right associativity).

(** Python's [for x in l: s = body(s, x)]. *)
Fixpoint for_each {A S : Type} (l : list A) (body : S -> A -> Prog S) (s : S)
  : Prog S :=
  match l with
  | [] => Ret s
  | x :: l' => s' <- body s x ;; for_each l' body s'
  end.

(** The outcome of a program once the collaborators answer. *)
Inductive Result (A : Type) : Type :=
| Ok (a : A)
| Err (e : Exception).

Arguments Ok {A} a.
Arguments Err {A} e.

Definition Handler : Type := forall X : Type, extE X -> X.

Fixpoint run (h : Handler) {A : Type} (p : Prog A) : Result A :=
  match p with
  | Ret a => Ok a
  | Raise e => Err e
  | Vis ev k => run h (k (h _ ev))
  end.

(** A call made to a collaborator, and the calls a program makes, in
    order, when the collaborators answer as [h]. *)
Inductive Call : Type :=
| Called (X : Type) (ev : extE X).

Arguments Called {X} ev.

Fixpoint calls (h : Handler) {A : Type} (p : Prog A) : list Call :=
  match p with
  | Ret _ | Raise _ => []
  | Vis ev k => Called ev :: calls h (k (h _ ev))
  end.

Definition is_propagation_call (c : Call) : bool :=
  match c with
  | Called (CalcHybridPropagationLoss _ _ _ _ _ _ _ _ _ _) => true
  | Called (CalcItmPropagationLoss _ _ _ _ _ _ _ _ _) => true
  | Called _ => false
  end.

Definition propagation_calls (h : Handler) {A : Type} (p : Prog A)
  : list Call :=
  filter is_propagation_call (calls h p).

(** ** Constants of the module *)

Definition GWPZ_NEIGHBORHOOD_DIST : Z := 40.
Definition PPA_NEIGHBORHOOD_DIST : Z := 40.
Definition FSS_CO_CHANNEL_NEIGHBORHOOD_DIST : Z := 150.
Definition FSS_BLOCKING_NEIGHBORHOOD_DIST : Z := 40.
Definition ESC_NEIGHBORHOOD_DIST_A : Z := 40.
Definition ESC_NEIGHBORHOOD_DIST_B : Z := 80.

Definition FREQ_PROP_MODEL_MHZ : R := 3625%R.

Definition MHZ : Z := 1000000.
Definition CBRS_LOW_FREQ_HZ : Z := 3550 * MHZ.
Definition CBRS_HIGH_FREQ_HZ : Z := 3700 * MHZ.
Definition ESC_CAT_A_HIGH_FREQ_HZ : Z := 3660 * MHZ.
Definition IAPBW_HZ : Z := 5 * MHZ.

Definition GWPZ_PPA_HEIGHT : R := 1.5%R.
Definition IN_BAND_INSERTION_LOSS : R := 0.5%R.

(** [_DISTANCE_PER_PROTECTION_TYPE]: the dictionary, in source order. *)
Definition _DISTANCE_PER_PROTECTION_TYPE : list (ProtectedEntityType * (Z * Z)) :=
  [ (GWPZ_AREA, (GWPZ_NEIGHBORHOOD_DIST, GWPZ_NEIGHBORHOOD_DIST));
    (PPA_AREA, (PPA_NEIGHBORHOOD_DIST, PPA_NEIGHBORHOOD_DIST));
    (FSS_CO_CHANNEL,
      (FSS_CO_CHANNEL_NEIGHBORHOOD_DIST, FSS_CO_CHANNEL_NEIGHBORHOOD_DIST));
    (FSS_BLOCKING,
      (FSS_BLOCKING_NEIGHBORHOOD_DIST, FSS_BLOCKING_NEIGHBORHOOD_DIST));
    (ESC, (ESC_NEIGHBORHOOD_DIST_A, ESC_NEIGHBORHOOD_DIST_B)) ].

Fixpoint dict_get {V : Type} (d : list (ProtectedEntityType * V))
  (k : ProtectedEntityType) : option V :=
  match d with
  | [] => None
  | (k', v) :: d' => if ProtectedEntityType_eqb k' k then Some v else dict_get d' k
  end.

(** [d[key]]: a key that is not in the dictionary raises [KeyError]. *)
Definition subscript {V : Type} (d : list (ProtectedEntityType * V))
  (key : PyObj) : Prog V :=
  match key with
  | EnumMember t =>
      match dict_get d t with
      | Some v => Ret v
      | None => Raise KeyError
      end
  | _ => Raise KeyError
  end.

(** [pair[b]] for a boolean [b]: [False] is index 0 and [True] index 1. *)
Definition index_bool (p : Z * Z) (b : bool) : Z :=
  if b then snd p else fst p.

(** ** Unit conversions *)

(** [np.log10] on a positive argument.  For [x <= 0] numpy answers
    [-inf] or [nan]; no statement below relies on the value this
    definition has there. *)
Definition log10 (x : R) : R := (ln x / ln 10)%R.

Definition dbToLinear (x : R) : R := Rpower 10 (x / 10).

Definition linearToDb (x : R) : R := (10 * log10 x)%R.

(** ** Channelizer *)

(** [np.arange(start, stop, step)] for a positive step: [ceil((stop -
    start) / step)] values [start + i * step]. *)
Definition ceil_div (a b : Z) : Z := - ((- a) / b).

Definition arange (start stop step : Z) : list Z :=
  map (fun i => start + Z.of_nat i * step)
      (seq 0 (Z.to_nat (ceil_div (stop - start) step))).

Definition getProtectedChannels (low_freq_hz high_freq_hz : Z)
  : Prog (list (Z * Z)) :=
  if low_freq_hz <? high_freq_hz then
    let channels :=
      arange (Z.max low_freq_hz (3550 * MHZ)) (Z.min high_freq_hz (3700 * MHZ))
             (5 * MHZ) in
    Ret (combine channels (map (fun c => c + 5 * MHZ) channels))
  else Raise (AssertionError "Low frequency is greater than high frequency").

(** ** Comparisons of floats, as booleans *)

Definition Rltb (a b : R) : bool := if Rlt_dec a b then true else false.
Definition Rleb (a b : R) : bool := if Rle_dec a b then true else false.
Definition Reqb (a b : R) : bool := if Req_dec_T a b then true else false.

(** ** Neighborhood and frequency filters *)

Definition findGrantsInsideNeighborhood (grants : list CbsdGrantInformation)
  (protection_point : R * R) (entity_type : PyObj)
  : Prog (list CbsdGrantInformation) :=
  for_each grants
    (fun grants_inside grant =>
       '(dist_km, _, _) <-
          call (GeodesicDistanceBearing (Grant.latitude grant)
                  (Grant.longitude grant)
                  (fst protection_point) (snd protection_point)) ;;
       radii <- subscript _DISTANCE_PER_PROTECTION_TYPE entity_type ;;
       if Rleb dist_km
            (IZR (index_bool radii (String.eqb (Grant.cbsd_category grant) "B")))
       then Ret (grants_inside ++ [grant])
       else Ret grants_inside)
    [].

Definition findOverlappingGrants (grants : list CbsdGrantInformation)
  (constraint : ProtectionConstraint) : Prog (list CbsdGrantInformation) :=
  for_each grants
    (fun grants_inside grant =>
       let overlapping_bw :=
         Z.min (Grant.high_frequency grant) (Constraint.high_frequency constraint)
         - Z.max (Grant.low_frequency grant) (Constraint.low_frequency constraint) in
       let freq_check := 0 <? overlapping_bw in
       radii <- subscript _DISTANCE_PER_PROTECTION_TYPE
                  (Constraint.entity_type constraint) ;;
       let freq_check :=
         if py_eq (EnumMember ESC) (IntPair (fst radii) (snd radii)) then
           if String.eqb (Grant.cbsd_category grant) "A"
              && (ESC_CAT_A_HIGH_FREQ_HZ <? Constraint.high_frequency constraint)
           then false else freq_check
         else freq_check in
       if freq_check then Ret (grants_inside ++ [grant])
       else Ret grants_inside)
    [].

(** ** Extraction of grants from the activity dumps *)

Module Fad.
Record InstallationParam : Type := mkInstallationParam {
  latitude : R;
  longitude : R;
  height : R;
  heightType : string;
  indoorDeployment : bool;
  antennaAzimuth : R;
  antennaGain : R;
  antennaBeamwidth : R
}.
Record RegistrationRequest : Type := mkRegistrationRequest {
  installationParam : InstallationParam;
  cbsdCategory : string
}.
Record FrequencyRange : Type := mkFrequencyRange {
  lowFrequency : Z;
  highFrequency : Z
}.
Record OperationParam : Type := mkOperationParam {
  maxEirp : R;
  operationFrequencyRange : FrequencyRange
}.
Record GrantRecord : Type := mkGrantRecord {
  operationParam : OperationParam
}.
Record CbsdData : Type := mkCbsdData {
  registrationRequest : RegistrationRequest;
  grants : list GrantRecord
}.
(** A FAD object, as far as the module uses it: [getCbsdRecords()]. *)
Record FullActivityDump : Type := mkFullActivityDump {
  getCbsdRecords : list CbsdData
}.
End Fad.

Definition height_error : string :=
  "CBSD height is less than 1m or greater than 1000m.".

Definition getAllGrantInformationFromCbsdDataDump
  (cbsd_data_records : list Fad.CbsdData) (is_managing_sas : bool)
  : Prog (list CbsdGrantInformation) :=
  for_each cbsd_data_records
    (fun grant_objects cbsd_data_record =>
       let registration := Fad.registrationRequest cbsd_data_record in
       let grants := Fad.grants cbsd_data_record in
       let install := Fad.installationParam registration in
       let lat_cbsd := Fad.latitude install in
       let lon_cbsd := Fad.longitude install in
       let height_cbsd := Fad.height install in
       let height_type_cbsd := Fad.heightType install in
       height_cbsd <-
         (if String.eqb height_type_cbsd "AMSL" then
            altitude_cbsd <- call (GetTerrainElevation lat_cbsd lon_cbsd) ;;
            Ret (height_cbsd - altitude_cbsd)%R
          else Ret height_cbsd) ;;
       if Rltb height_cbsd 1 || Rltb 1000 height_cbsd then
         Raise (ValueError height_error)
       else
         Ret (fold_left
                (fun grant_objects grant =>
                   let op := Fad.operationParam grant in
                   grant_objects ++
                   [Grant.mk lat_cbsd lon_cbsd height_cbsd
                      (Fad.indoorDeployment install)
                      (Fad.antennaAzimuth install)
                      (Fad.antennaGain install)
                      (Fad.antennaBeamwidth install)
                      (Fad.cbsdCategory registration)
                      (Fad.maxEirp op)
                      (Fad.lowFrequency (Fad.operationFrequencyRange op))
                      (Fad.highFrequency (Fad.operationFrequencyRange op))
                      is_managing_sas])
                grants grant_objects))
    [].

(** [grant_objects_test_harness] is a local that is bound only in the body
    of the inner loop: it is carried as an [option], [None] while unbound. *)
Definition getGrantObjectsFromFAD (sas_uut_fad_object : Fad.FullActivityDump)
  (sas_th_fad_objects : list Fad.FullActivityDump)
  : Prog (list CbsdGrantInformation) :=
  let cbsd_list_uut :=
    fold_left (fun l cbsds => l ++ [cbsds])
              (Fad.getCbsdRecords sas_uut_fad_object) [] in
  grant_objects_uut <-
    getAllGrantInformationFromCbsdDataDump cbsd_list_uut true ;;
  st <- for_each sas_th_fad_objects
          (fun st fad =>
             for_each (Fad.getCbsdRecords fad)
               (fun (st : list Fad.CbsdData * option (list CbsdGrantInformation))
                    cbsds =>
                  let cbsd_list_th := fst st ++ [cbsds] in
                  grant_objects_test_harness <-
                    getAllGrantInformationFromCbsdDataDump cbsd_list_th false ;;
                  Ret (cbsd_list_th, Some grant_objects_test_harness))
               st)
          ([], None) ;;
  match snd st with
  | Some grant_objects_test_harness =>
      Ret (grant_objects_uut ++ grant_objects_test_harness)
  | None => Raise (UnboundLocalError "grant_objects_test_harness")
  end.

(** ** Effective EIRP *)

(** [reference_bandwidth] is [None] when the caller leaves the argument
    out; the default is [IAPBW_HZ]. *)
Definition getEffectiveSystemEirp (max_eirp cbsd_max_ant_gain effective_ant_gain : R)
  (reference_bandwidth : option R) : R :=
  let reference_bandwidth :=
    match reference_bandwidth with
    | Some bw => bw
    | None => IZR IAPBW_HZ
    end in
  ((max_eirp - cbsd_max_ant_gain) + effective_ant_gain
   + linearToDb (reference_bandwidth / IZR MHZ))%R.

(** ** Per-incumbent formulas *)

Definition computeInterferencePpaGwpzPoint (cbsd_grant : CbsdGrantInformation)
  (constraint : ProtectionConstraint) (h_inc_ant max_eirp : R)
  (region : option string) : Prog R :=
  propag <-
    (if Reqb (Grant.latitude cbsd_grant) (Constraint.latitude constraint)
        && Reqb (Grant.longitude cbsd_grant) (Constraint.longitude constraint)
     then Ret (mkPropag 0 (_IncidenceAngles 0 0 0 0))
     else call (CalcHybridPropagationLoss
                  (Grant.latitude cbsd_grant) (Grant.longitude cbsd_grant)
                  (Grant.height_agl cbsd_grant)
                  (Constraint.latitude constraint)
                  (Constraint.longitude constraint) h_inc_ant
                  (Grant.indoor_deployment cbsd_grant)
                  (-1) FREQ_PROP_MODEL_MHZ region)) ;;
  ant_gain <- call (GetStandardAntennaGains
                      (hor_cbsd (incidence_angles propag))
                      (Grant.antenna_azimuth cbsd_grant)
                      (Grant.antenna_beamwidth cbsd_grant)
                      (Grant.antenna_gain cbsd_grant)) ;;
  let eirp := getEffectiveSystemEirp max_eirp (Grant.antenna_gain cbsd_grant)
                ant_gain None in
  Ret (eirp - db_loss propag)%R.

Definition computeInterferenceEsc (cbsd_grant : CbsdGrantInformation)
  (constraint : ProtectionConstraint) (esc_antenna_info : EscInformation)
  (max_eirp : R) : Prog R :=
  propag <- call (CalcItmPropagationLoss
                    (Grant.latitude cbsd_grant) (Grant.longitude cbsd_grant)
                    (Grant.height_agl cbsd_grant)
                    (Constraint.latitude constraint)
                    (Constraint.longitude constraint)
                    (Esc.antenna_height esc_antenna_info)
                    (Grant.indoor_deployment cbsd_grant)
                    (-1) FREQ_PROP_MODEL_MHZ) ;;
  ant_gain <- call (GetStandardAntennaGains
                      (hor_cbsd (incidence_angles propag))
                      (Grant.antenna_azimuth cbsd_grant)
                      (Grant.antenna_beamwidth cbsd_grant)
                      (Grant.antenna_gain cbsd_grant)) ;;
  esc_ant_gain <- call (GetAntennaPatternGains
                          (hor_rx (incidence_angles propag))
                          (Esc.antenna_azimuth esc_antenna_info)
                          (Esc.antenna_pattern_gain esc_antenna_info)
                          (Esc.antenna_gain esc_antenna_info)) ;;
  let effective_ant_gain := (ant_gain + esc_ant_gain)%R in
  let eirp := getEffectiveSystemEirp max_eirp (Grant.antenna_gain cbsd_grant)
                effective_ant_gain None in
  Ret (eirp - db_loss propag - IN_BAND_INSERTION_LOSS)%R.

Definition computeInterferenceFssCochannel (cbsd_grant : CbsdGrantInformation)
  (constraint : ProtectionConstraint) (fss_info : FssProtectionPoint)
  (max_eirp : R) : Prog R :=
  propag <- call (CalcItmPropagationLoss
                    (Grant.latitude cbsd_grant) (Grant.longitude cbsd_grant)
                    (Grant.height_agl cbsd_grant)
                    (Constraint.latitude constraint)
                    (Constraint.longitude constraint)
                    (Fss.height_agl fss_info)
                    (Grant.indoor_deployment cbsd_grant)
                    (-1) FREQ_PROP_MODEL_MHZ) ;;
  ant_gain <- call (GetStandardAntennaGains
                      (hor_cbsd (incidence_angles propag))
                      (Grant.antenna_azimuth cbsd_grant)
                      (Grant.antenna_beamwidth cbsd_grant)
                      (Grant.antenna_gain cbsd_grant)) ;;
  fss_ant_gain <- call (GetFssAntennaGains
                          (hor_rx (incidence_angles propag))
                          (ver_rx (incidence_angles propag))
                          (Fss.pointing_azimuth fss_info)
                          (Fss.pointing_elevation fss_info)
                          (Fss.max_gain_dbi fss_info)) ;;
  let effective_ant_gain := (ant_gain + fss_ant_gain)%R in
  let eirp := getEffectiveSystemEirp max_eirp (Grant.antenna_gain cbsd_grant)
                effective_ant_gain None in
  Ret (eirp - db_loss propag - IN_BAND_INSERTION_LOSS)%R.

(** ** Blocking mask loss *)

(** The conditions of the [if]/[elif] chain of [getFssMaskLoss], in source
    order; [offset] is 50 MHz below the low edge of the constraint. *)
Definition mask_offset (constraint : ProtectionConstraint) : Z :=
  Constraint.low_frequency constraint - 50 * MHZ.

Definition mask_cond1 (cbsd_grant : CbsdGrantInformation)
  (constraint : ProtectionConstraint) : bool :=
  (Constraint.low_frequency constraint <? Grant.low_frequency cbsd_grant)
  && (Constraint.low_frequency constraint <? Grant.high_frequency cbsd_grant).

Definition mask_cond2 (cbsd_grant : CbsdGrantInformation)
  (constraint : ProtectionConstraint) : bool :=
  (Grant.low_frequency cbsd_grant <? mask_offset constraint)
  && (Grant.high_frequency cbsd_grant <? mask_offset constraint).

Definition mask_cond3 (cbsd_grant : CbsdGrantInformation)
  (constraint : ProtectionConstraint) : bool :=
  (Grant.low_frequency cbsd_grant <? mask_offset constraint)
  && (mask_offset constraint <? Grant.high_frequency cbsd_grant).

Definition mask_cond4 (cbsd_grant : CbsdGrantInformation)
  (constraint : ProtectionConstraint) : bool :=
  (Grant.low_frequency cbsd_grant <? Constraint.low_frequency constraint)
  && (Grant.high_frequency cbsd_grant <? Constraint.low_frequency constraint)
  && (mask_offset constraint <? Grant.low_frequency cbsd_grant)
  && (mask_offset constraint <? Grant.high_frequency cbsd_grant).

Definition getFssMaskLoss (cbsd_grant : CbsdGrantInformation)
  (constraint : ProtectionConstraint) : R :=
  let offset := mask_offset constraint in
  let cbsd_freq_range :=
    Grant.high_frequency cbsd_grant - Grant.low_frequency cbsd_grant in
  if mask_cond1 cbsd_grant constraint then 0.5%R
  else if mask_cond2 cbsd_grant constraint then
    linearToDb (IZR cbsd_freq_range / IZR MHZ * 0.25)
  else if mask_cond3 cbsd_grant constraint then
    let low_freq_mask_loss :=
      linearToDb (IZR (offset - Grant.low_frequency cbsd_grant) / IZR MHZ * 0.25) in
    (low_freq_mask_loss
     + linearToDb (IZR (Grant.high_frequency cbsd_grant - offset) / IZR MHZ * 0.6))%R
  else if mask_cond4 cbsd_grant constraint then
    linearToDb (IZR cbsd_freq_range / IZR MHZ * 0.6)
  else 0%R.

(** How many of the four conditions hold. *)
Definition mask_branches_applying (cbsd_grant : CbsdGrantInformation)
  (constraint : ProtectionConstraint) : nat :=
  List.length
    (filter (fun b : bool => b)
       [ mask_cond1 cbsd_grant constraint; mask_cond2 cbsd_grant constraint;
         mask_cond3 cbsd_grant constraint; mask_cond4 cbsd_grant constraint ]).

Definition computeInterferenceFssBlocking (cbsd_grant : CbsdGrantInformation)
  (constraint : ProtectionConstraint) (fss_info : FssProtectionPoint)
  (max_eirp : R) : Prog R :=
  propag <- call (CalcItmPropagationLoss
                    (Grant.latitude cbsd_grant) (Grant.longitude cbsd_grant)
                    (Grant.height_agl cbsd_grant)
                    (Constraint.latitude constraint)
                    (Constraint.longitude constraint)
                    (Fss.height_agl fss_info)
                    (Grant.indoor_deployment cbsd_grant)
                    (-1) FREQ_PROP_MODEL_MHZ) ;;
  ant_gain <- call (GetStandardAntennaGains
                      (hor_cbsd (incidence_angles propag))
                      (Grant.antenna_azimuth cbsd_grant)
                      (Grant.antenna_beamwidth cbsd_grant)
                      (Grant.antenna_gain cbsd_grant)) ;;
  fss_ant_gain <- call (GetFssAntennaGains
                          (hor_rx (incidence_angles propag))
                          (ver_rx (incidence_angles propag))
                          (Fss.pointing_azimuth fss_info)
                          (Fss.pointing_elevation fss_info)
                          (Fss.max_gain_dbi fss_info)) ;;
  let effective_ant_gain := (ant_gain + fss_ant_gain)%R in
  let eirp :=
    getEffectiveSystemEirp max_eirp (Grant.antenna_gain cbsd_grant)
      effective_ant_gain
      (Some (IZR (Grant.high_frequency cbsd_grant
                  - Grant.low_frequency cbsd_grant))) in
  Ret (eirp - getFssMaskLoss cbsd_grant constraint - db_loss propag)%R.

(** ** Dispatcher *)

(** [fss_info], [esc_antenna_info] and [region_type] default to Python's
    [None]; reading a field of [None] raises [AttributeError], which the
    formulas do while they build the arguments of their first call. *)
Definition computeInterference (grant : CbsdGrantInformation) (eirp : R)
  (channel_constraint : ProtectionConstraint)
  (fss_info : option FssProtectionPoint)
  (esc_antenna_info : option EscInformation)
  (region_type : option string) : Prog R :=
  if py_is (Constraint.entity_type channel_constraint) FSS_CO_CHANNEL then
    match fss_info with
    | Some fss_info =>
        x <- computeInterferenceFssCochannel grant channel_constraint fss_info eirp ;;
        Ret (dbToLinear x)
    | None => Raise AttributeError
    end
  else if py_is (Constraint.entity_type channel_constraint) FSS_BLOCKING then
    match fss_info with
    | Some fss_info =>
        x <- computeInterferenceFssBlocking grant channel_constraint fss_info eirp ;;
        Ret (dbToLinear x)
    | None => Raise AttributeError
    end
  else if py_is (Constraint.entity_type channel_constraint) ESC then
    match esc_antenna_info with
    | Some esc_antenna_info =>
        x <- computeInterferenceEsc grant channel_constraint esc_antenna_info eirp ;;
        Ret (dbToLinear x)
    | None => Raise AttributeError
    end
  else
    x <- computeInterferencePpaGwpzPoint grant channel_constraint
           GWPZ_PPA_HEIGHT eirp region_type ;;
    Ret (dbToLinear x).

(** ** Inputs of the examples *)

(** A grant at [(lat, lon)], 6 m above ground, outdoor, with an
    omnidirectional 6 dBi antenna and 30 dBm of EIRP. *)
Definition example_grant (lat lon : R) (category : string) (low high : Z)
  : CbsdGrantInformation :=
  Grant.mk lat lon 6 false 0 6 360 category 30 low high true.

(** A grant on 3590-3610 MHz, across the low edge of a 3600 MHz passband,
    and one on 3540-3550 MHz, that ends on the offset of that passband. *)
Definition grant_across_passband_edge : CbsdGrantInformation :=
  example_grant 0 0 "A" (3590 * MHZ) (3610 * MHZ).

Definition grant_up_to_offset : CbsdGrantInformation :=
  example_grant 0 0 "A" (3540 * MHZ) (3550 * MHZ).

Definition fss_blocking_constraint : ProtectionConstraint :=
  Constraint.mk 0 0 (3600 * MHZ) (4200 * MHZ) (EnumMember FSS_BLOCKING).

(** An ESC constraint on 3650-3670 MHz: its high edge is above 3660 MHz. *)
Definition esc_constraint_3670 : ProtectionConstraint :=
  Constraint.mk 0 0 (3650 * MHZ) (3670 * MHZ) (EnumMember ESC).

Definition unknown_constraint : ProtectionConstraint :=
  Constraint.mk 0 0 (3600 * MHZ) (3610 * MHZ) (OtherObj "RADAR").

Definition example_esc : EscInformation := Esc.mk 10 0 0 [].

(** A record of a CBSD 6 m above ground with one grant whose frequency
    range is reversed: 3600 MHz up to 3550 MHz. *)
Definition record_reversed_range : Fad.CbsdData :=
  Fad.mkCbsdData
    (Fad.mkRegistrationRequest
       (Fad.mkInstallationParam 0 0 6 "AGL" false 0 6 360) "A")
    [ Fad.mkGrantRecord
        (Fad.mkOperationParam 30
           (Fad.mkFrequencyRange (3600 * MHZ) (3550 * MHZ))) ].

(** A record of a CBSD 6 m above ground with one grant on 3550-3560 MHz,
    and one of a CBSD half a metre above ground. *)
Definition record_ok : Fad.CbsdData :=
  Fad.mkCbsdData
    (Fad.mkRegistrationRequest
       (Fad.mkInstallationParam 0 0 6 "AGL" false 0 6 360) "A")
    [ Fad.mkGrantRecord
        (Fad.mkOperationParam 30
           (Fad.mkFrequencyRange (3550 * MHZ) (3560 * MHZ))) ].

Definition record_too_low : Fad.CbsdData :=
  Fad.mkCbsdData
    (Fad.mkRegistrationRequest
       (Fad.mkInstallationParam 0 0 0.5 "AGL" false 0 6 360) "A")
    [ Fad.mkGrantRecord
        (Fad.mkOperationParam 30
           (Fad.mkFrequencyRange (3550 * MHZ) (3560 * MHZ))) ].

Definition fad_uut : Fad.FullActivityDump :=
  Fad.mkFullActivityDump [record_ok].

Definition fad_without_records : Fad.FullActivityDump :=
  Fad.mkFullActivityDump [].

(** Collaborators that answer with constants: a distance (km), a
    propagation loss (dB) with zero incidence angles, an antenna gain
    (dBi) and a terrain elevation (m). *)
Definition const_handler (dist loss gain elevation : R) : Handler :=
  fun X ev =>
    match ev in extE X return X with
    | GeodesicDistanceBearing _ _ _ _ => (dist, 0%R, 0%R)
    | GetTerrainElevation _ _ => elevation
    | CalcHybridPropagationLoss _ _ _ _ _ _ _ _ _ _ =>
        mkPropag loss (_IncidenceAngles 0 0 0 0)
    | CalcItmPropagationLoss _ _ _ _ _ _ _ _ _ =>
        mkPropag loss (_IncidenceAngles 0 0 0 0)
    | GetStandardAntennaGains _ _ _ _ => gain
    | GetAntennaPatternGains _ _ _ _ => gain
    | GetFssAntennaGains _ _ _ _ _ => gain
    end.

(** ** Vocabulary of the properties *)

(** The great-circle distance the geodesic collaborator [h] gives between
    a grant and a protection point. *)
Definition distance_km (h : Handler) (grant : CbsdGrantInformation)
  (protection_point : R * R) : R :=
  fst (fst (h _ (GeodesicDistanceBearing (Grant.latitude grant)
                   (Grant.longitude grant)
                   (fst protection_point) (snd protection_point)))).

(** The neighborhood radius (km) per entity type and grant category. *)
Definition neighborhood_radius (t : ProtectedEntityType) (category : string)
  : Z :=
  match t with
  | GWPZ_AREA => 40
  | PPA_AREA => 40
  | FSS_CO_CHANNEL => 150
  | FSS_BLOCKING => 40
  | ESC => if String.eqb category "B" then 80 else 40
  end.

(** The frequency ranges of a grant and of a constraint overlap on a
    band of positive width. *)
Definition overlaps (grant : CbsdGrantInformation)
  (constraint : ProtectionConstraint) : bool :=
  0 <? Z.min (Grant.high_frequency grant) (Constraint.high_frequency constraint)
       - Z.max (Grant.low_frequency grant) (Constraint.low_frequency constraint).

(** The antenna height of a record above ground, once the terrain
    collaborator [h] has answered for the heights given above sea level. *)
Definition height_above_ground (h : Handler) (r : Fad.CbsdData) : R :=
  let install := Fad.installationParam (Fad.registrationRequest r) in
  if String.eqb (Fad.heightType install) "AMSL" then
    (Fad.height install
     - h _ (GetTerrainElevation (Fad.latitude install) (Fad.longitude install)))%R
  else Fad.height install.

(** The grants of one record, as [CbsdGrantInformation] tuples. *)
Definition grants_of (h : Handler) (is_managing_sas : bool) (r : Fad.CbsdData)
  : list CbsdGrantInformation :=
  let registration := Fad.registrationRequest r in
  let install := Fad.installationParam registration in
  map (fun grant =>
         let op := Fad.operationParam grant in
         Grant.mk (Fad.latitude install) (Fad.longitude install)
           (height_above_ground h r)
           (Fad.indoorDeployment install) (Fad.antennaAzimuth install)
           (Fad.antennaGain install) (Fad.antennaBeamwidth install)
           (Fad.cbsdCategory registration) (Fad.maxEirp op)
           (Fad.lowFrequency (Fad.operationFrequencyRange op))
           (Fad.highFrequency (Fad.operationFrequencyRange op))
           is_managing_sas)
      (Fad.grants r).

(** The sanity check of the extraction on the height of a record. *)
Definition height_in_bounds (h : Handler) (r : Fad.CbsdData) : bool :=
  negb (Rltb (height_above_ground h r) 1 || Rltb 1000 (height_above_ground h r)).

(** Two outcomes in order: two values in order, or the same error. *)
Definition result_le (a b : Result R) : Prop :=
  match a, b with
  | Ok x, Ok y => (x <= y)%R
  | Err e, Err e' => e = e'
  | _, _ => False
  end.


(** [tiles l a b]: the channels of [l], in order, are non-empty, each
    starts where the one before ends, the first starts at [a] and the last
    ends at [b]: they partition [[a, b)]. *)
Fixpoint tiles (l : list (Z * Z)) (a b : Z) : Prop :=
  match l with
  | [] => a = b
  | ch :: l' => fst ch = a /\ fst ch < snd ch /\ tiles l' (snd ch) b
  end.

Definition width (ch : Z * Z) : Z := snd ch - fst ch.


(** The 5 MHz channel number [i] counted from [start]. *)
Definition channel_from (start : Z) (i : nat) : Z * Z :=
  (start + Z.of_nat i * (5 * MHZ), start + Z.of_nat i * (5 * MHZ) + 5 * MHZ).

(** The thirty channels of the whole band, 3550-3555 MHz up to
    3695-3700 MHz. *)
Definition band_channels : list (Z * Z) :=
  map (channel_from (3550 * MHZ)) (seq 0 30).

(** The geodesic call the neighborhood filter makes for a grant. *)
Definition distance_call (protection_point : R * R)
  (grant : CbsdGrantInformation) : Call :=
  Called (GeodesicDistanceBearing (Grant.latitude grant)
            (Grant.longitude grant)
            (fst protection_point) (snd protection_point)).

(** A grant is within the neighborhood radius of its category. *)
Definition inside_neighborhood (h : Handler) (protection_point : R * R)
  (t : ProtectedEntityType) (grant : CbsdGrantInformation) : bool :=
  Rleb (distance_km h grant protection_point)
       (IZR (neighborhood_radius t (Grant.cbsd_category grant))).

(** The records the extraction goes through: all of them up to, and
    with, the first whose height fails the check. *)
Fixpoint records_processed (h : Handler) (records : list Fad.CbsdData)
  : list Fad.CbsdData :=
  match records with
  | [] => []
  | r :: records' =>
      r :: (if height_in_bounds h r then records_processed h records' else [])
  end.

(** The terrain calls for the records whose height is given above mean
    sea level. *)
Definition terrain_calls (records : list Fad.CbsdData) : list Call :=
  flat_map
    (fun r =>
       let install := Fad.installationParam (Fad.registrationRequest r) in
       if String.eqb (Fad.heightType install) "AMSL"
       then [Called (GetTerrainElevation (Fad.latitude install)
                       (Fad.longitude install))]
       else [])
    records.

(** The CBSD records of a list of dumps, dump after dump. *)
Definition all_records (fads : list Fad.FullActivityDump) : list Fad.CbsdData :=
  flat_map Fad.getCbsdRecords fads.

(** A function applied to the value of an outcome. *)
Definition result_map {A B : Type} (f : A -> B) (r : Result A) : Result B :=
  match r with
  | Ok a => Ok (f a)
  | Err e => Err e
  end.

(** Copies of a grant and of a constraint with other field values
    ([_replace] of a named tuple). *)
Definition grant_with_max_eirp (g : CbsdGrantInformation) (max_eirp : R)
  (is_managed_grant : bool) : CbsdGrantInformation :=
  Grant.mk (Grant.latitude g) (Grant.longitude g) (Grant.height_agl g)
    (Grant.indoor_deployment g) (Grant.antenna_azimuth g)
    (Grant.antenna_gain g) (Grant.antenna_beamwidth g)
    (Grant.cbsd_category g) max_eirp
    (Grant.low_frequency g) (Grant.high_frequency g) is_managed_grant.

Definition grant_with_frequencies (g : CbsdGrantInformation) (low high : Z)
  : CbsdGrantInformation :=
  Grant.mk (Grant.latitude g) (Grant.longitude g) (Grant.height_agl g)
    (Grant.indoor_deployment g) (Grant.antenna_azimuth g)
    (Grant.antenna_gain g) (Grant.antenna_beamwidth g)
    (Grant.cbsd_category g) (Grant.max_eirp g) low high
    (Grant.is_managed_grant g).

Definition constraint_with_frequencies (c : ProtectionConstraint)
  (low high : Z) : ProtectionConstraint :=
  Constraint.mk (Constraint.latitude c) (Constraint.longitude c) low high
    (Constraint.entity_type c).

(** The grant and the protection point have the same coordinates. *)
Definition colocated (g : CbsdGrantInformation) (c : ProtectionConstraint)
  : bool :=
  Reqb (Grant.latitude g) (Constraint.latitude c)
  && Reqb (Grant.longitude g) (Constraint.longitude c).

(** The call to the ITM model from a grant to a point, for a receiver at
    height [height_rx], and the call to the hybrid model. *)
Definition itm_call (g : CbsdGrantInformation) (c : ProtectionConstraint)
  (height_rx : R) : Call :=
  Called (CalcItmPropagationLoss
            (Grant.latitude g) (Grant.longitude g) (Grant.height_agl g)
            (Constraint.latitude c) (Constraint.longitude c) height_rx
            (Grant.indoor_deployment g) (-1) FREQ_PROP_MODEL_MHZ).

Definition hybrid_call (g : CbsdGrantInformation) (c : ProtectionConstraint)
  (height_rx : R) (region : option string) : Call :=
  Called (CalcHybridPropagationLoss
            (Grant.latitude g) (Grant.longitude g) (Grant.height_agl g)
            (Constraint.latitude c) (Constraint.longitude c) height_rx
            (Grant.indoor_deployment g) (-1) FREQ_PROP_MODEL_MHZ region).
(** * Properties *)

(** ** Channelizer *)

Lemma combine_map_self {A B : Type} (g : A -> B) (l : list A) :
  combine l (map g l) = map (fun x => (x, g x)) l.
Proof.
  induction l as [|x l IH]; simpl; [reflexivity | now rewrite IH].
Qed.

Lemma ceil_div_bounds (a b : Z) :
  0 < b -> a <= b * ceil_div a b < a + b.
Proof.
  intros Hb. unfold ceil_div.
  pose proof (Z.div_mod (- a) b ltac:(lia)) as Hdm.
  pose proof (Z.mod_pos_bound (- a) b Hb) as Hm.
  rewrite Z.mul_opp_r. lia.
Qed.

Lemma getProtectedChannels_eq (low high : Z) :
  low < high ->
  getProtectedChannels low high =
  Ret (map (fun i => (Z.max low (3550 * MHZ) + Z.of_nat i * (5 * MHZ),
                      Z.max low (3550 * MHZ) + Z.of_nat i * (5 * MHZ) + 5 * MHZ))
           (seq 0 (Z.to_nat (ceil_div (Z.min high (3700 * MHZ)
                                       - Z.max low (3550 * MHZ)) (5 * MHZ))))).
Proof.
  intros Hlt. unfold getProtectedChannels.
  apply Z.ltb_lt in Hlt. rewrite Hlt. f_equal.
  rewrite combine_map_self. unfold arange. now rewrite map_map.
Qed.

Lemma tiles_seq (start step : Z) (n k : nat) :
  0 < step ->
  tiles (map (fun i => (start + Z.of_nat i * step,
                        start + Z.of_nat i * step + step)) (seq k n))
        (start + Z.of_nat k * step) (start + Z.of_nat (k + n) * step).
Proof.
  intros Hstep. revert k.
  induction n as [|n IH]; intros k; simpl.
  - now rewrite Nat.add_0_r.
  - split; [reflexivity|]. split; [lia|].
    specialize (IH (S k)).
    replace (start + Z.of_nat k * step + step)
      with (start + Z.of_nat (S k) * step) by lia.
    now replace (k + S n)%nat with (S k + n)%nat by lia.
Qed.

Lemma tiles_end_unique (l : list (Z * Z)) (a b b' : Z) :
  tiles l a b -> tiles l a b' -> b = b'.
Proof.
  revert a. induction l as [|ch l IH]; simpl; intros a H H'.
  - congruence.
  - destruct H as (_ & _ & H), H' as (_ & _ & H'). eauto.
Qed.

(** C2 as amended: on a range that meets the band, the channelizer returns
    a non-empty list of channels that are all exactly 5 MHz wide, start at
    the clipped low edge and follow one another without gap or overlap.
    They are [ceil] of the clipped width over 5 MHz many: they end at
    the first multiple of 5 MHz above the clipped low edge that reaches
    the clipped high edge, so they cover the clipped range, and end on it
    exactly when its width is a multiple of 5 MHz. *)
Theorem getProtectedChannels_partition (low high : Z) :
  low < high -> low < 3700 * MHZ -> 3550 * MHZ < high ->
  let start := Z.max low (3550 * MHZ) in
  let stop := Z.min high (3700 * MHZ) in
  exists l,
    getProtectedChannels low high = Ret l /\
    l <> [] /\
    Forall (fun ch => width ch = 5 * MHZ) l /\
    tiles l start (start + 5 * MHZ * Z.of_nat (List.length l)) /\
    stop <= start + 5 * MHZ * Z.of_nat (List.length l) < stop + 5 * MHZ /\
    ((stop - start) mod (5 * MHZ) = 0 <-> tiles l start stop).
Proof.
  intros Hlt Hlo Hhi start stop.
  rewrite (getProtectedChannels_eq low high Hlt).
  fold start stop.
  set (n := Z.to_nat (ceil_div (stop - start) (5 * MHZ))).
  assert (Hstep : 0 < 5 * MHZ) by (unfold MHZ; lia).
  assert (Hpos : 0 < stop - start) by (unfold start, stop, MHZ in *; lia).
  pose proof (ceil_div_bounds (stop - start) (5 * MHZ) Hstep) as Hc.
  assert (Hn : Z.of_nat n = ceil_div (stop - start) (5 * MHZ)).
  { unfold n. apply Z2Nat.id. nia. }
  assert (Htiles : tiles
            (map (fun i => (start + Z.of_nat i * (5 * MHZ),
                            start + Z.of_nat i * (5 * MHZ) + 5 * MHZ)) (seq 0 n))
            start (start + 5 * MHZ * Z.of_nat n)).
  { pose proof (tiles_seq start (5 * MHZ) n 0 Hstep) as T.
    simpl in T. rewrite Z.add_0_r in T.
    now rewrite (Z.mul_comm (5 * MHZ)). }
  eexists. split; [reflexivity|].
  rewrite length_map, length_seq.
  repeat split.
  - destruct n; [nia | discriminate].
  - apply Forall_forall. intros ch Hin.
    apply in_map_iff in Hin. destruct Hin as (i & <- & _).
    unfold width. simpl. lia.
  - exact Htiles.
  - rewrite Hn. lia.
  - rewrite Hn. lia.
  - intros Hmod.
    apply Z.mod_divide in Hmod; [|lia]. destruct Hmod as [q Hq].
    assert (Z.of_nat n = q) by nia.
    replace stop with (start + 5 * MHZ * Z.of_nat n) by lia.
    exact Htiles.
  - intros Hstop.
    pose proof (tiles_end_unique _ _ _ _ Htiles Hstop) as E.
    replace (stop - start) with (Z.of_nat n * (5 * MHZ)) by lia.
    apply Z.mod_mul. lia.
Qed.

Lemma getProtectedChannels_partition_witness :
  (3600 * MHZ < 3612 * MHZ /\ 3600 * MHZ < 3700 * MHZ
   /\ 3550 * MHZ < 3612 * MHZ) /\
  exists l,
    getProtectedChannels (3600 * MHZ) (3612 * MHZ) = Ret l /\
    l <> [] /\
    Forall (fun ch => width ch = 5 * MHZ) l /\
    tiles l (Z.max (3600 * MHZ) (3550 * MHZ))
      (Z.max (3600 * MHZ) (3550 * MHZ) + 5 * MHZ * Z.of_nat (List.length l)) /\
    Z.min (3612 * MHZ) (3700 * MHZ)
      <= Z.max (3600 * MHZ) (3550 * MHZ) + 5 * MHZ * Z.of_nat (List.length l)
      < Z.min (3612 * MHZ) (3700 * MHZ) + 5 * MHZ /\
    ((Z.min (3612 * MHZ) (3700 * MHZ) - Z.max (3600 * MHZ) (3550 * MHZ))
       mod (5 * MHZ) = 0
     <-> tiles l (Z.max (3600 * MHZ) (3550 * MHZ))
           (Z.min (3612 * MHZ) (3700 * MHZ))).
Proof.
  split; [unfold MHZ; lia|].
  apply (getProtectedChannels_partition (3600 * MHZ) (3612 * MHZ));
    unfold MHZ; lia.
Defined.

(** C2 as stated fails: on 3550-3557 MHz the channelizer returns two
    channels, 3550-3555 MHz and 3555-3560 MHz.  The last one is 5 MHz
    wide, not the 2 MHz that remain, and the channels do not partition
    [[3550 MHz, 3557 MHz)]. *)
Lemma getProtectedChannels_last_channel_not_narrowed :
  getProtectedChannels (3550 * MHZ) (3557 * MHZ)
    = Ret [ (3550 * MHZ, 3555 * MHZ); (3555 * MHZ, 3560 * MHZ) ]
  /\ ~ (exists l, getProtectedChannels (3550 * MHZ) (3557 * MHZ) = Ret l
                  /\ tiles l (Z.max (3550 * MHZ) (3550 * MHZ))
                             (Z.min (3557 * MHZ) (3700 * MHZ))).
Proof.
  assert (E : getProtectedChannels (3550 * MHZ) (3557 * MHZ)
              = Ret [ (3550 * MHZ, 3555 * MHZ); (3555 * MHZ, 3560 * MHZ) ])
    by (vm_compute; reflexivity).
  split; [exact E|].
  intros (l & Hl & Ht). rewrite E in Hl. injection Hl as <-.
  vm_compute in Ht. destruct Ht as (_ & _ & _ & _ & Ht). discriminate Ht.
Qed.

(** ** Blocking mask loss *)

Ltac ltb_cases :=
  repeat match goal with
         | |- context [?a <? ?b] => destruct (Z.ltb_spec a b)
         end.

Lemma mask_cond1_iff (g : CbsdGrantInformation) (c : ProtectionConstraint) :
  Grant.low_frequency g < Grant.high_frequency g ->
  (mask_cond1 g c = true
   <-> Constraint.low_frequency c < Grant.low_frequency g).
Proof.
  intros Hg. unfold mask_cond1. ltb_cases; simpl; split; intros; try lia;
    try discriminate; reflexivity.
Qed.

(** C1 as amended: for a grant with low < high the four conditions of
    the mask are pairwise exclusive, so at most one branch applies, and
    the branch taken in the source order gives: 0.5 dB when the low edge
    of the passband is strictly below the low frequency of the grant;
    the 0.25/MHz term when the grant ends below the offset; the sum of
    the two partial terms when the offset is strictly inside the grant;
    the 0.6/MHz term when the grant lies strictly between the offset and
    the passband.  Exactly one branch applies exactly in these four
    cases. *)
Theorem getFssMaskLoss_branches (g : CbsdGrantInformation)
  (c : ProtectionConstraint) :
  Grant.low_frequency g < Grant.high_frequency g ->
  let glow := Grant.low_frequency g in
  let ghigh := Grant.high_frequency g in
  let clow := Constraint.low_frequency c in
  let offset := clow - 50 * MHZ in
  (mask_branches_applying g c <= 1)%nat
  /\ (clow < glow -> getFssMaskLoss g c = 0.5%R)
  /\ (ghigh < offset ->
      getFssMaskLoss g c = linearToDb (IZR (ghigh - glow) / IZR MHZ * 0.25))
  /\ (glow < offset < ghigh ->
      getFssMaskLoss g c =
      (linearToDb (IZR (offset - glow) / IZR MHZ * 0.25)
       + linearToDb (IZR (ghigh - offset) / IZR MHZ * 0.6))%R)
  /\ (offset < glow /\ ghigh < clow ->
      getFssMaskLoss g c = linearToDb (IZR (ghigh - glow) / IZR MHZ * 0.6))
  /\ (mask_branches_applying g c = 1%nat
      <-> clow < glow \/ ghigh < offset \/ glow < offset < ghigh
          \/ (offset < glow /\ ghigh < clow)).
Proof.
  intros Hg. cbv zeta.
  unfold getFssMaskLoss, mask_branches_applying,
    mask_cond1, mask_cond2, mask_cond3, mask_cond4, mask_offset.
  assert (HM : 50 * MHZ = 50000000) by reflexivity.
  revert Hg HM.
  generalize (Grant.low_frequency g) (Grant.high_frequency g)
    (Constraint.low_frequency c) (50 * MHZ).
  intros glow ghigh clow fifty Hg HM.
  repeat split; ltb_cases; simpl; intros;
    try reflexivity; try lia; exfalso; lia.
Qed.

Lemma getFssMaskLoss_branches_witness :
  Grant.low_frequency (example_grant 0 0 "A" (3650 * MHZ) (3660 * MHZ))
    < Grant.high_frequency (example_grant 0 0 "A" (3650 * MHZ) (3660 * MHZ))
  /\ getFssMaskLoss (example_grant 0 0 "A" (3650 * MHZ) (3660 * MHZ))
       fss_blocking_constraint = 0.5%R.
Proof.
  split; [simpl; unfold MHZ; lia|].
  apply (getFssMaskLoss_branches
           (example_grant 0 0 "A" (3650 * MHZ) (3660 * MHZ))
           fss_blocking_constraint);
    simpl; unfold MHZ; lia.
Defined.

(** C1 as stated fails: a 3590-3610 MHz grant has the low edge of a
    3600 MHz passband within its range, yet none of the four conditions
    holds and the mask loss is 0 dB, not 0.5 dB. *)
Lemma getFssMaskLoss_passband_edge_within_grant :
  Grant.low_frequency grant_across_passband_edge
    < Grant.high_frequency grant_across_passband_edge
  /\ Grant.low_frequency grant_across_passband_edge
       <= Constraint.low_frequency fss_blocking_constraint
       < Grant.high_frequency grant_across_passband_edge
  /\ mask_branches_applying grant_across_passband_edge fss_blocking_constraint
     = 0%nat
  /\ getFssMaskLoss grant_across_passband_edge fss_blocking_constraint = 0%R
  /\ getFssMaskLoss grant_across_passband_edge fss_blocking_constraint
     <> 0.5%R.
Proof.
  assert (E : getFssMaskLoss grant_across_passband_edge fss_blocking_constraint
              = 0%R) by reflexivity.
  rewrite E.
  repeat split; try (vm_compute; congruence); lra.
Qed.

(** A grant that ends exactly on the offset is in no branch either. *)
Lemma getFssMaskLoss_grant_ends_on_offset :
  mask_branches_applying grant_up_to_offset fss_blocking_constraint = 0%nat
  /\ getFssMaskLoss grant_up_to_offset fss_blocking_constraint = 0%R.
Proof. split; reflexivity. Qed.

(** ** Programs and loops *)

Lemma run_bind (h : Handler) {A B : Type} (p : Prog A) (f : A -> Prog B) :
  run h (bind p f) =
  match run h p with
  | Ok a => run h (f a)
  | Err e => Err e
  end.
Proof.
  induction p as [a | e | X ev k IH]; simpl; auto.
Qed.

Lemma calls_bind (h : Handler) {A B : Type} (p : Prog A) (f : A -> Prog B) :
  calls h (bind p f) =
  calls h p ++ match run h p with
               | Ok a => calls h (f a)
               | Err _ => []
               end.
Proof.
  induction p as [a | e | X ev k IH]; simpl; auto.
  now rewrite IH.
Qed.

(** A loop whose body appends the element or leaves the list alone is a
    filter. *)
Lemma for_each_filter {A : Type} (keep : A -> bool)
  (body : list A -> A -> Prog (list A)) (l acc : list A) :
  (forall acc x, body acc x = Ret (if keep x then acc ++ [x] else acc)) ->
  for_each l body acc = Ret (acc ++ filter keep l).
Proof.
  intros Hbody. revert acc.
  induction l as [|x l IH]; intros acc; simpl.
  - now rewrite app_nil_r.
  - rewrite Hbody. simpl. rewrite IH.
    destruct (keep x); [now rewrite <- app_assoc | reflexivity].
Qed.

Lemma run_for_each_filter (h : Handler) {A : Type} (keep : A -> bool)
  (body : list A -> A -> Prog (list A)) (l acc : list A) :
  (forall acc x, run h (body acc x) = Ok (if keep x then acc ++ [x] else acc)) ->
  run h (for_each l body acc) = Ok (acc ++ filter keep l).
Proof.
  intros Hbody. revert acc.
  induction l as [|x l IH]; intros acc; simpl.
  - now rewrite app_nil_r.
  - rewrite run_bind, Hbody, IH.
    destruct (keep x); [now rewrite <- app_assoc | reflexivity].
Qed.

Lemma Rleb_le (a b : R) : Rleb a b = true <-> (a <= b)%R.
Proof.
  unfold Rleb. destruct (Rle_dec a b); split; intros; congruence || auto.
Qed.

Lemma Rltb_lt (a b : R) : Rltb a b = true <-> (a < b)%R.
Proof.
  unfold Rltb. destruct (Rlt_dec a b); split; intros; congruence || auto.
Qed.

Lemma Reqb_refl (a : R) : Reqb a a = true.
Proof.
  unfold Reqb. destruct (Req_dec_T a a); congruence.
Qed.

(** ** Frequency-overlap filter *)

(** The test [ProtectedEntityType.ESC == _DISTANCE_PER_PROTECTION_TYPE[...]]
    compares a member of the enumeration with a pair: it never holds, so
    for every known entity type the filter keeps exactly the grants that
    overlap the constraint, whatever their category. *)
Lemma findOverlappingGrants_overlap_only (grants : list CbsdGrantInformation)
  (c : ProtectionConstraint) (t : ProtectedEntityType) :
  Constraint.entity_type c = EnumMember t ->
  findOverlappingGrants grants c = Ret (filter (fun g => overlaps g c) grants).
Proof.
  intros Ht. unfold findOverlappingGrants.
  rewrite (for_each_filter (fun g => overlaps g c)); [reflexivity|].
  intros acc g. rewrite Ht. unfold overlaps.
  destruct t; simpl;
    match goal with |- context [0 <? ?w] => destruct (0 <? w) end;
    reflexivity.
Qed.

(** C3, on the code: a category-A grant on 3650-3660 MHz against an ESC
    constraint on 3650-3670 MHz, whose high edge exceeds 3660 MHz, is
    returned by the overlap filter instead of being excluded. *)
Theorem findOverlappingGrants_keeps_category_A :
  String.eqb (Grant.cbsd_category
                (example_grant 0 0 "A" (3650 * MHZ) (3660 * MHZ))) "A" = true
  /\ Constraint.entity_type esc_constraint_3670 = EnumMember ESC
  /\ ESC_CAT_A_HIGH_FREQ_HZ < Constraint.high_frequency esc_constraint_3670
  /\ findOverlappingGrants
       [example_grant 0 0 "A" (3650 * MHZ) (3660 * MHZ)] esc_constraint_3670
     = Ret [example_grant 0 0 "A" (3650 * MHZ) (3660 * MHZ)].
Proof.
  repeat split.
Qed.

(** ** Neighborhood filter *)

Lemma subscript_distance (t : ProtectedEntityType) (category : string) :
  exists radii,
    subscript _DISTANCE_PER_PROTECTION_TYPE (EnumMember t) = Ret radii
    /\ index_bool radii (String.eqb category "B")
       = neighborhood_radius t category.
Proof.
  destruct t; eexists; (split; [reflexivity|]); simpl;
    destruct (String.eqb category "B"); reflexivity.
Qed.

(** C7: for every known entity type the neighborhood filter returns the
    input grants, in input order, whose distance to the protection point
    is at most the radius of the table for the category of the grant: a
    grant is returned if and only if it is an input grant within its
    radius, so a grant exactly on the radius is returned; against an ESC
    a grant of category B has 80 km and any other grant 40 km. *)
Theorem findGrantsInsideNeighborhood_filter (h : Handler)
  (grants : list CbsdGrantInformation) (protection_point : R * R)
  (t : ProtectedEntityType) :
  let inside g :=
    Rleb (distance_km h g protection_point)
         (IZR (neighborhood_radius t (Grant.cbsd_category g))) in
  run h (findGrantsInsideNeighborhood grants protection_point (EnumMember t))
    = Ok (filter inside grants)
  /\ (forall g, In g (filter inside grants) <->
                In g grants
                /\ (distance_km h g protection_point
                    <= IZR (neighborhood_radius t (Grant.cbsd_category g)))%R)
  /\ neighborhood_radius ESC "A" = 40
  /\ neighborhood_radius ESC "B" = 80.
Proof.
  intros inside. repeat split; try reflexivity.
  - unfold findGrantsInsideNeighborhood.
    rewrite (run_for_each_filter h inside); [reflexivity|].
    intros acc g.
    destruct (subscript_distance t (Grant.cbsd_category g)) as (radii & Hs & Hr).
    subst inside. unfold distance_km. cbv beta.
    rewrite run_bind. unfold call. cbn [run].
    destruct (h _ (GeodesicDistanceBearing _ _ _ _)) as [[dist_km b1] b2].
    rewrite run_bind, Hs. cbn [run fst]. rewrite Hr.
    destruct (Rleb dist_km _); reflexivity.
  - apply filter_In in H. tauto.
  - apply filter_In in H. apply Rleb_le. tauto.
  - intros [Hin Hle]. apply filter_In. split; [assumption|].
    now apply Rleb_le.
Qed.

(** ** Extraction of grants *)

Lemma fold_left_append_map {A B : Type} (f : A -> B) (l : list A)
  (acc : list B) :
  fold_left (fun acc x => acc ++ [f x]) l acc = acc ++ map f l.
Proof.
  revert acc. induction l as [|x l IH]; intros acc; simpl.
  - now rewrite app_nil_r.
  - rewrite IH. now rewrite <- app_assoc.
Qed.

Lemma fold_left_append_id {A : Type} (l : list A) :
  fold_left (fun acc x => acc ++ [x]) l [] = l.
Proof.
  rewrite (fold_left_append_map (fun x => x)). simpl. apply map_id.
Qed.

(** The extraction, once the terrain collaborator answers: the grants of
    all records when every height passes the check, the [ValueError] of
    the check otherwise. *)
Lemma run_getAllGrantInformationFromCbsdDataDump (h : Handler)
  (records : list Fad.CbsdData) (is_managing_sas : bool) :
  run h (getAllGrantInformationFromCbsdDataDump records is_managing_sas) =
  if forallb (height_in_bounds h) records
  then Ok (flat_map (grants_of h is_managing_sas) records)
  else Err (ValueError height_error).
Proof.
  unfold getAllGrantInformationFromCbsdDataDump.
  match goal with |- context [for_each _ ?b _] => set (body := b) end.
  assert (Hbody : forall acc r,
             run h (body acc r) =
             if height_in_bounds h r
             then Ok (acc ++ grants_of h is_managing_sas r)
             else Err (ValueError height_error)).
  { intros acc r. unfold body, height_in_bounds, grants_of, height_above_ground.
    cbv zeta. rewrite run_bind.
    destruct (String.eqb _ "AMSL"); cbn [call bind run];
      match goal with |- context [Rltb ?a 1 || Rltb 1000 ?a] =>
        destruct (Rltb a 1 || Rltb 1000 a) end;
      cbn [negb run]; try reflexivity;
      now rewrite (fold_left_append_map
                     (fun grant =>
                        Grant.mk _ _ _ _ _ _ _ _ _ _ _ is_managing_sas)). }
  clearbody body.
  change (flat_map (grants_of h is_managing_sas) records)
    with ([] ++ flat_map (grants_of h is_managing_sas) records).
  generalize (@nil CbsdGrantInformation) as acc.
  induction records as [|r records IH]; intros acc.
  - simpl. now rewrite app_nil_r.
  - cbn [for_each forallb flat_map].
    rewrite run_bind, Hbody.
    destruct (height_in_bounds h r); cbn [andb]; [|reflexivity].
    rewrite IH. now rewrite <- app_assoc.
Qed.

Lemma height_in_bounds_iff (h : Handler) (r : Fad.CbsdData) :
  height_in_bounds h r = true <-> (1 <= height_above_ground h r <= 1000)%R.
Proof.
  unfold height_in_bounds.
  rewrite negb_true_iff, orb_false_iff.
  unfold Rltb.
  destruct (Rlt_dec _ 1), (Rlt_dec 1000 _); split; intros;
    try lra; intuition congruence.
Qed.

(** C8 as amended: the extraction fails with the [ValueError] of the
    height check as soon as the height above ground of one record of the
    list is below 1 m or above 1000 m, and otherwise returns every grant
    of every record, in order, with the frequency range of the record
    copied as it is: frequency ranges are not checked. *)
Theorem getAllGrantInformationFromCbsdDataDump_validation (h : Handler)
  (records : list Fad.CbsdData) (is_managing_sas : bool) :
  ((exists r, In r records
              /\ ~ (1 <= height_above_ground h r <= 1000)%R) ->
   run h (getAllGrantInformationFromCbsdDataDump records is_managing_sas)
   = Err (ValueError height_error))
  /\ ((forall r, In r records -> (1 <= height_above_ground h r <= 1000)%R) ->
      run h (getAllGrantInformationFromCbsdDataDump records is_managing_sas)
      = Ok (flat_map (grants_of h is_managing_sas) records)).
Proof.
  rewrite run_getAllGrantInformationFromCbsdDataDump. split.
  - intros (r & Hin & Hbad).
    destruct (forallb (height_in_bounds h) records) eqn:E; [|reflexivity].
    exfalso. apply Hbad. apply height_in_bounds_iff.
    rewrite forallb_forall in E. now apply E.
  - intros Hall.
    assert (E : forallb (height_in_bounds h) records = true).
    { apply forallb_forall. intros r Hin.
      apply height_in_bounds_iff. now apply Hall. }
    now rewrite E.
Qed.

Lemma getAllGrantInformationFromCbsdDataDump_validation_witness :
  run (const_handler 0 0 0 0)
      (getAllGrantInformationFromCbsdDataDump [record_ok; record_too_low] true)
  = Err (ValueError height_error)
  /\ run (const_handler 0 0 0 0)
         (getAllGrantInformationFromCbsdDataDump [record_ok] true)
     = Ok (flat_map (grants_of (const_handler 0 0 0 0) true) [record_ok]).
Proof.
  split.
  - apply (getAllGrantInformationFromCbsdDataDump_validation
             (const_handler 0 0 0 0) [record_ok; record_too_low] true).
    exists record_too_low. split; [simpl; auto|].
    unfold height_above_ground. simpl. lra.
  - apply (getAllGrantInformationFromCbsdDataDump_validation
             (const_handler 0 0 0 0) [record_ok] true).
    intros r [<- | []]. unfold height_above_ground. simpl. lra.
Defined.

(** C8 as stated fails: a record 6 m above ground whose only grant has
    the reversed range 3600 MHz to 3550 MHz is extracted without error,
    the range unchanged. *)
Lemma getAllGrantInformationFromCbsdDataDump_keeps_reversed_range :
  getAllGrantInformationFromCbsdDataDump [record_reversed_range] true
  = Ret [ Grant.mk 0 0 6 false 0 6 360 "A" 30 (3600 * MHZ) (3550 * MHZ) true ]
  /\ ~ (3600 * MHZ < 3550 * MHZ).
Proof.
  split; [|unfold MHZ; lia].
  unfold getAllGrantInformationFromCbsdDataDump. simpl.
  unfold Rltb.
  destruct (Rlt_dec 6 1); [lra|]. destruct (Rlt_dec 1000 6); [lra|].
  reflexivity.
Qed.

(** The loops over the test-harness dumps leave their state alone when
    no dump has a record. *)
Lemma for_each_no_records {S : Type}
  (body : S -> Fad.CbsdData -> Prog S)
  (fads : list Fad.FullActivityDump) (st : S) :
  (forall fad, In fad fads -> Fad.getCbsdRecords fad = []) ->
  for_each fads (fun st fad => for_each (Fad.getCbsdRecords fad) body st) st
  = Ret st.
Proof.
  induction fads as [|fad fads IH]; intros Hempty; simpl.
  - reflexivity.
  - rewrite (Hempty fad (or_introl eq_refl)). simpl.
    apply IH. intros fad' Hin. apply Hempty. now right.
Qed.

(** C10: when the list of test-harness dumps is empty, or none of them
    has a CBSD record, [getGrantObjectsFromFAD] never returns: it ends
    with the error of the extraction of the dump under test when that
    extraction fails, and otherwise, the grants of the dump under test
    extracted, with the error of the unbound local
    [grant_objects_test_harness]. *)
Theorem getGrantObjectsFromFAD_unbound_local (h : Handler)
  (sas_uut_fad_object : Fad.FullActivityDump)
  (sas_th_fad_objects : list Fad.FullActivityDump) :
  (forall fad, In fad sas_th_fad_objects -> Fad.getCbsdRecords fad = []) ->
  run h (getGrantObjectsFromFAD sas_uut_fad_object sas_th_fad_objects)
  = match run h (getAllGrantInformationFromCbsdDataDump
                   (Fad.getCbsdRecords sas_uut_fad_object) true) with
    | Ok _ => Err (UnboundLocalError "grant_objects_test_harness")
    | Err e => Err e
    end
  /\ ((forall r, In r (Fad.getCbsdRecords sas_uut_fad_object) ->
                 (1 <= height_above_ground h r <= 1000)%R) ->
      run h (getGrantObjectsFromFAD sas_uut_fad_object sas_th_fad_objects)
      = Err (UnboundLocalError "grant_objects_test_harness")).
Proof.
  intros Hempty.
  assert (E : run h (getGrantObjectsFromFAD sas_uut_fad_object sas_th_fad_objects)
              = match run h (getAllGrantInformationFromCbsdDataDump
                               (Fad.getCbsdRecords sas_uut_fad_object) true) with
                | Ok _ => Err (UnboundLocalError "grant_objects_test_harness")
                | Err e => Err e
                end).
  { unfold getGrantObjectsFromFAD. cbv zeta.
    rewrite fold_left_append_id, run_bind.
    destruct (run h (getAllGrantInformationFromCbsdDataDump _ true));
      [|reflexivity].
    rewrite (for_each_no_records _ _ _ Hempty). reflexivity. }
  split; [exact E|].
  intros Hok. rewrite E.
  rewrite run_getAllGrantInformationFromCbsdDataDump.
  assert (F : forallb (height_in_bounds h)
                (Fad.getCbsdRecords sas_uut_fad_object) = true).
  { apply forallb_forall. intros r Hin.
    apply height_in_bounds_iff. now apply Hok. }
  now rewrite F.
Qed.

Lemma getGrantObjectsFromFAD_unbound_local_witness :
  run (const_handler 0 0 0 0)
      (getGrantObjectsFromFAD fad_uut [fad_without_records])
  = Err (UnboundLocalError "grant_objects_test_harness").
Proof.
  apply (getGrantObjectsFromFAD_unbound_local
           (const_handler 0 0 0 0) fad_uut [fad_without_records]).
  - intros fad [<- | []]. reflexivity.
  - intros r [<- | []]. unfold height_above_ground. simpl. lra.
Defined.

(** ** Effective EIRP *)

Lemma ln_10_pos : (0 < ln 10)%R.
Proof.
  rewrite <- ln_1. apply ln_increasing; lra.
Qed.

Lemma log10_mult (x y : R) :
  (0 < x)%R -> (0 < y)%R -> log10 (x * y) = (log10 x + log10 y)%R.
Proof.
  intros Hx Hy. unfold log10. rewrite (ln_mult x y Hx Hy).
  pose proof ln_10_pos. field. lra.
Qed.

(** X1: [linearToDb] undoes [dbToLinear]: converting a dB value to a
    power and back gives the value again. *)
Lemma linearToDb_dbToLinear (x : R) : linearToDb (dbToLinear x) = x.
Proof.
  unfold linearToDb, log10, dbToLinear, Rpower.
  rewrite ln_exp. pose proof ln_10_pos. field. lra.
Qed.

(** C4: the effective EIRP is [(max_eirp - cbsd_max_ant_gain) +
    effective_ant_gain + 10 log10 (reference_bandwidth / 1 MHz)]; the
    reference bandwidth left out is 5 MHz; twice a positive reference
    bandwidth adds [10 log10 2]; and the blocking formula passes the
    bandwidth of the grant, [high_frequency - low_frequency]. *)
Theorem getEffectiveSystemEirp_reference_bandwidth (h : Handler)
  (cbsd_grant : CbsdGrantInformation) (constraint : ProtectionConstraint)
  (fss_info : FssProtectionPoint)
  (max_eirp cbsd_max_ant_gain effective_ant_gain reference_bandwidth : R) :
  (0 < reference_bandwidth)%R ->
  getEffectiveSystemEirp max_eirp cbsd_max_ant_gain effective_ant_gain
    (Some reference_bandwidth)
  = ((max_eirp - cbsd_max_ant_gain) + effective_ant_gain
     + 10 * log10 (reference_bandwidth / 1000000))%R
  /\ getEffectiveSystemEirp max_eirp cbsd_max_ant_gain effective_ant_gain None
     = getEffectiveSystemEirp max_eirp cbsd_max_ant_gain effective_ant_gain
         (Some 5000000%R)
  /\ getEffectiveSystemEirp max_eirp cbsd_max_ant_gain effective_ant_gain
       (Some (2 * reference_bandwidth)%R)
     = (getEffectiveSystemEirp max_eirp cbsd_max_ant_gain effective_ant_gain
          (Some reference_bandwidth) + 10 * log10 2)%R
  /\ (let propag :=
        h _ (CalcItmPropagationLoss
               (Grant.latitude cbsd_grant) (Grant.longitude cbsd_grant)
               (Grant.height_agl cbsd_grant)
               (Constraint.latitude constraint)
               (Constraint.longitude constraint)
               (Fss.height_agl fss_info)
               (Grant.indoor_deployment cbsd_grant)
               (-1) FREQ_PROP_MODEL_MHZ) in
      let ant_gain :=
        h _ (GetStandardAntennaGains (hor_cbsd (incidence_angles propag))
               (Grant.antenna_azimuth cbsd_grant)
               (Grant.antenna_beamwidth cbsd_grant)
               (Grant.antenna_gain cbsd_grant)) in
      let fss_ant_gain :=
        h _ (GetFssAntennaGains (hor_rx (incidence_angles propag))
               (ver_rx (incidence_angles propag))
               (Fss.pointing_azimuth fss_info)
               (Fss.pointing_elevation fss_info)
               (Fss.max_gain_dbi fss_info)) in
      run h (computeInterferenceFssBlocking cbsd_grant constraint fss_info
               max_eirp)
      = Ok (getEffectiveSystemEirp max_eirp (Grant.antenna_gain cbsd_grant)
              (ant_gain + fss_ant_gain)
              (Some (IZR (Grant.high_frequency cbsd_grant
                          - Grant.low_frequency cbsd_grant)))
            - getFssMaskLoss cbsd_grant constraint - db_loss propag)%R).
Proof.
  intros Hbw.
  split; [reflexivity|]. split; [reflexivity|]. split; [|reflexivity].
  unfold getEffectiveSystemEirp, linearToDb, MHZ.
  replace (2 * reference_bandwidth / 1000000)%R
    with (2 * (reference_bandwidth / 1000000))%R by lra.
  rewrite log10_mult; lra.
Qed.

Lemma getEffectiveSystemEirp_reference_bandwidth_witness :
  (0 < 5000000)%R
  /\ getEffectiveSystemEirp 30 6 4 (Some (2 * 5000000)%R)
     = (getEffectiveSystemEirp 30 6 4 (Some 5000000%R) + 10 * log10 2)%R.
Proof.
  split; [lra|].
  apply (getEffectiveSystemEirp_reference_bandwidth (const_handler 0 0 0 0)
           (example_grant 0 0 "A" (3650 * MHZ) (3660 * MHZ))
           fss_blocking_constraint (Fss.mk 0 0 10 30 0 0) 30 6 4 5000000).
  lra.
Defined.

(** ** Per-incumbent formulas and the propagation collaborator *)

(** The area-point formula never raises; at a protection point that has
    the coordinates of the grant it calls no propagation model and takes
    a loss of zero and a horizontal incidence angle of zero. *)
Lemma run_computeInterferencePpaGwpzPoint (h : Handler)
  (g : CbsdGrantInformation) (c : ProtectionConstraint) (h_inc_ant eirp : R)
  (region : option string) :
  let propag :=
    if Reqb (Grant.latitude g) (Constraint.latitude c)
       && Reqb (Grant.longitude g) (Constraint.longitude c)
    then mkPropag 0 (_IncidenceAngles 0 0 0 0)
    else h _ (CalcHybridPropagationLoss
                (Grant.latitude g) (Grant.longitude g) (Grant.height_agl g)
                (Constraint.latitude c) (Constraint.longitude c) h_inc_ant
                (Grant.indoor_deployment g) (-1) FREQ_PROP_MODEL_MHZ region) in
  run h (computeInterferencePpaGwpzPoint g c h_inc_ant eirp region)
  = Ok (getEffectiveSystemEirp eirp (Grant.antenna_gain g)
          (h _ (GetStandardAntennaGains (hor_cbsd (incidence_angles propag))
                  (Grant.antenna_azimuth g) (Grant.antenna_beamwidth g)
                  (Grant.antenna_gain g)))
          None
        - db_loss propag)%R.
Proof.
  unfold computeInterferencePpaGwpzPoint. cbv zeta.
  destruct (Reqb _ _ && Reqb _ _); reflexivity.
Qed.

Lemma computeInterferencePpaGwpzPoint_colocated (h : Handler)
  (g : CbsdGrantInformation) (c : ProtectionConstraint) (h_inc_ant eirp : R)
  (region : option string) :
  Grant.latitude g = Constraint.latitude c ->
  Grant.longitude g = Constraint.longitude c ->
  propagation_calls h (computeInterferencePpaGwpzPoint g c h_inc_ant eirp region)
  = []
  /\ run h (computeInterferencePpaGwpzPoint g c h_inc_ant eirp region)
     = Ok (getEffectiveSystemEirp eirp (Grant.antenna_gain g)
             (h _ (GetStandardAntennaGains 0 (Grant.antenna_azimuth g)
                     (Grant.antenna_beamwidth g) (Grant.antenna_gain g)))
             None
           - 0)%R.
Proof.
  intros Hlat Hlon.
  rewrite run_computeInterferencePpaGwpzPoint.
  unfold propagation_calls, computeInterferencePpaGwpzPoint.
  rewrite Hlat, Hlon, !Reqb_refl. split; reflexivity.
Qed.

(** The sensor and the two satellite formulas start with a call to the
    ITM propagation model, wherever the grant and the point are. *)
Lemma computeInterferenceEsc_calls_itm (h : Handler)
  (g : CbsdGrantInformation) (c : ProtectionConstraint)
  (esc : EscInformation) (eirp : R) :
  propagation_calls h (computeInterferenceEsc g c esc eirp)
  = [ Called (CalcItmPropagationLoss
                (Grant.latitude g) (Grant.longitude g) (Grant.height_agl g)
                (Constraint.latitude c) (Constraint.longitude c)
                (Esc.antenna_height esc) (Grant.indoor_deployment g)
                (-1) FREQ_PROP_MODEL_MHZ) ].
Proof. reflexivity. Qed.

Lemma computeInterferenceFssCochannel_calls_itm (h : Handler)
  (g : CbsdGrantInformation) (c : ProtectionConstraint)
  (fss : FssProtectionPoint) (eirp : R) :
  propagation_calls h (computeInterferenceFssCochannel g c fss eirp)
  = [ Called (CalcItmPropagationLoss
                (Grant.latitude g) (Grant.longitude g) (Grant.height_agl g)
                (Constraint.latitude c) (Constraint.longitude c)
                (Fss.height_agl fss) (Grant.indoor_deployment g)
                (-1) FREQ_PROP_MODEL_MHZ) ].
Proof. reflexivity. Qed.

Lemma computeInterferenceFssBlocking_calls_itm (h : Handler)
  (g : CbsdGrantInformation) (c : ProtectionConstraint)
  (fss : FssProtectionPoint) (eirp : R) :
  propagation_calls h (computeInterferenceFssBlocking g c fss eirp)
  = [ Called (CalcItmPropagationLoss
                (Grant.latitude g) (Grant.longitude g) (Grant.height_agl g)
                (Constraint.latitude c) (Constraint.longitude c)
                (Fss.height_agl fss) (Grant.indoor_deployment g)
                (-1) FREQ_PROP_MODEL_MHZ) ].
Proof. reflexivity. Qed.

(** C6, on the code: for a grant at the very coordinates of an ESC
    protection point the sensor formula calls the ITM propagation model
    and subtracts the loss the model answers, here 100 dB, where the
    area-point formula on the same pair calls no propagation model and
    subtracts nothing. *)
Theorem computeInterferenceEsc_colocated_calls_propagation :
  Grant.latitude (example_grant 0 0 "A" (3650 * MHZ) (3660 * MHZ))
    = Constraint.latitude esc_constraint_3670
  /\ Grant.longitude (example_grant 0 0 "A" (3650 * MHZ) (3660 * MHZ))
     = Constraint.longitude esc_constraint_3670
  /\ propagation_calls (const_handler 0 100 6 0)
       (computeInterferenceEsc
          (example_grant 0 0 "A" (3650 * MHZ) (3660 * MHZ))
          esc_constraint_3670 example_esc 30)
     = [ Called (CalcItmPropagationLoss 0 0 6 0 0 10 false (-1)
                   FREQ_PROP_MODEL_MHZ) ]
  /\ run (const_handler 0 100 6 0)
       (computeInterferenceEsc
          (example_grant 0 0 "A" (3650 * MHZ) (3660 * MHZ))
          esc_constraint_3670 example_esc 30)
     = Ok (getEffectiveSystemEirp 30 6 (6 + 6) None - 100
           - IN_BAND_INSERTION_LOSS)%R
  /\ propagation_calls (const_handler 0 100 6 0)
       (computeInterferencePpaGwpzPoint
          (example_grant 0 0 "A" (3650 * MHZ) (3660 * MHZ))
          esc_constraint_3670 GWPZ_PPA_HEIGHT 30 None)
     = [].
Proof.
  repeat split.
  apply computeInterferencePpaGwpzPoint_colocated; reflexivity.
Qed.

(** ** Dispatcher *)

Lemma py_is_member (x : PyObj) (t : ProtectedEntityType) :
  py_is x t = true <-> x = EnumMember t.
Proof.
  destruct x as [a | |]; simpl; split; intros H; try discriminate.
  - destruct a, t; try discriminate; reflexivity.
  - injection H as ->. destruct t; reflexivity.
Qed.

Lemma py_is_other (x : PyObj) (t : ProtectedEntityType) :
  x <> EnumMember t -> py_is x t = false.
Proof.
  intros H. destruct (py_is x t) eqn:E; [|reflexivity].
  apply py_is_member in E. contradiction.
Qed.

(** C5 as amended: the dispatcher sends the co-channel, blocking and ESC
    tags to their formulas and every other tag, the two area tags and
    any tag that is no member of the enumeration alike, to the
    area-point formula; in each case it returns the dB result of the
    formula converted by [10^(x/10)].  A tag outside the enumeration
    therefore gives a value under every answer of the collaborators. *)
Theorem computeInterference_dispatch (h : Handler)
  (grant : CbsdGrantInformation) (eirp : R)
  (c : ProtectionConstraint) (fss_info : FssProtectionPoint)
  (esc_antenna_info : EscInformation)
  (any_fss : option FssProtectionPoint) (any_esc : option EscInformation)
  (region_type : option string) :
  let tag := Constraint.entity_type c in
  (tag = EnumMember FSS_CO_CHANNEL ->
   computeInterference grant eirp c (Some fss_info) any_esc region_type
   = (x <- computeInterferenceFssCochannel grant c fss_info eirp ;;
      Ret (Rpower 10 (x / 10))))
  /\ (tag = EnumMember FSS_BLOCKING ->
      computeInterference grant eirp c (Some fss_info) any_esc region_type
      = (x <- computeInterferenceFssBlocking grant c fss_info eirp ;;
         Ret (Rpower 10 (x / 10))))
  /\ (tag = EnumMember ESC ->
      computeInterference grant eirp c any_fss (Some esc_antenna_info) region_type
      = (x <- computeInterferenceEsc grant c esc_antenna_info eirp ;;
         Ret (Rpower 10 (x / 10))))
  /\ (tag <> EnumMember FSS_CO_CHANNEL -> tag <> EnumMember FSS_BLOCKING ->
      tag <> EnumMember ESC ->
      computeInterference grant eirp c any_fss any_esc region_type
      = (x <- computeInterferencePpaGwpzPoint grant c GWPZ_PPA_HEIGHT eirp
                region_type ;;
         Ret (Rpower 10 (x / 10)))
      /\ exists x,
           run h (computeInterferencePpaGwpzPoint grant c GWPZ_PPA_HEIGHT eirp
                    region_type) = Ok x
           /\ run h (computeInterference grant eirp c any_fss any_esc
                       region_type) = Ok (Rpower 10 (x / 10))).
Proof.
  intros tag. unfold computeInterference. fold tag.
  repeat split.
  - intros ->. reflexivity.
  - intros ->. reflexivity.
  - intros ->. reflexivity.
  - rewrite !py_is_other by assumption. reflexivity.
  - rewrite !py_is_other by assumption.
    eexists. split; [apply run_computeInterferencePpaGwpzPoint|].
    rewrite run_bind, run_computeInterferencePpaGwpzPoint. reflexivity.
Qed.

Lemma computeInterference_dispatch_witness :
  exists x,
    run (const_handler 0 100 6 0)
        (computeInterferencePpaGwpzPoint
           (example_grant 1 1 "A" (3600 * MHZ) (3610 * MHZ))
           unknown_constraint GWPZ_PPA_HEIGHT 30 None) = Ok x
    /\ run (const_handler 0 100 6 0)
           (computeInterference
              (example_grant 1 1 "A" (3600 * MHZ) (3610 * MHZ)) 30
              unknown_constraint None None None) = Ok (Rpower 10 (x / 10)).
Proof.
  apply (computeInterference_dispatch (const_handler 0 100 6 0)
           (example_grant 1 1 "A" (3600 * MHZ) (3610 * MHZ)) 30
           unknown_constraint (Fss.mk 0 0 10 30 0 0) example_esc
           None None None); discriminate.
Defined.

(** C5 as stated fails: with the tag ["RADAR"], which is no member of
    the enumeration, the dispatcher raises nothing and returns a
    value. *)
Lemma computeInterference_unknown_tag_returns :
  Constraint.entity_type unknown_constraint = OtherObj "RADAR"
  /\ exists v,
       run (const_handler 0 100 6 0)
           (computeInterference
              (example_grant 1 1 "A" (3600 * MHZ) (3610 * MHZ)) 30
              unknown_constraint None None None) = Ok v.
Proof.
  split; [reflexivity|].
  eexists. unfold computeInterference. simpl py_is. cbv iota.
  rewrite run_bind, run_computeInterferencePpaGwpzPoint. reflexivity.
Qed.

(** With low < high every logarithm of the blocking formula and of the
    mask loss has a positive argument, where the real logarithm is
    [np.log10]. *)
Lemma blocking_logarithm_arguments_positive (g : CbsdGrantInformation)
  (c : ProtectionConstraint) :
  Grant.low_frequency g < Grant.high_frequency g ->
  let glow := Grant.low_frequency g in
  let ghigh := Grant.high_frequency g in
  let offset := mask_offset c in
  (0 < IZR (ghigh - glow) / IZR MHZ)%R
  /\ (0 < IZR (ghigh - glow) / IZR MHZ * 0.25)%R
  /\ (0 < IZR (ghigh - glow) / IZR MHZ * 0.6)%R
  /\ (mask_cond3 g c = true ->
      (0 < IZR (offset - glow) / IZR MHZ * 0.25)%R
      /\ (0 < IZR (ghigh - offset) / IZR MHZ * 0.6)%R).
Proof.
  intros Hg. cbv zeta.
  assert (Hbw : (0 < IZR (Grant.high_frequency g - Grant.low_frequency g))%R)
    by (apply IZR_lt; lia).
  assert (HM : IZR MHZ = 1000000%R) by reflexivity.
  rewrite HM. split; [lra|]. split; [lra|]. split; [lra|].
  intros Hc3. unfold mask_cond3 in Hc3.
  apply andb_true_iff in Hc3. destruct Hc3 as [Hlo Hhi].
  apply Z.ltb_lt in Hlo. apply Z.ltb_lt in Hhi.
  assert (Hl : (0 < IZR (mask_offset c - Grant.low_frequency g))%R)
    by (apply IZR_lt; lia).
  assert (Hh : (0 < IZR (Grant.high_frequency g - mask_offset c))%R)
    by (apply IZR_lt; lia).
  split; lra.
Qed.

(** C9: with the grant, the constraint, the auxiliary records and the
    answers of the collaborators fixed, the outcome of the dispatcher
    does not decrease when the EIRP grows: two values in order, or the
    same error when the auxiliary record of the entity type is missing.
    Under the [FSS_BLOCKING] tag, where the bandwidth of the grant goes
    through a logarithm, the grant has low < high. *)
Theorem computeInterference_monotone (h : Handler)
  (grant : CbsdGrantInformation) (c : ProtectionConstraint)
  (fss_info : option FssProtectionPoint)
  (esc_antenna_info : option EscInformation) (region_type : option string)
  (e1 e2 : R) :
  (Constraint.entity_type c = EnumMember FSS_BLOCKING ->
   Grant.low_frequency grant < Grant.high_frequency grant) ->
  (e1 <= e2)%R ->
  result_le
    (run h (computeInterference grant e1 c fss_info esc_antenna_info region_type))
    (run h (computeInterference grant e2 c fss_info esc_antenna_info region_type)).
Proof.
  intros _ Hle.
  assert (Hmono : forall a b, (a <= b)%R -> (dbToLinear a <= dbToLinear b)%R).
  { intros a b Hab. unfold dbToLinear. apply Rle_Rpower; lra. }
  unfold computeInterference.
  destruct (py_is _ FSS_CO_CHANNEL);
    [|destruct (py_is _ FSS_BLOCKING); [|destruct (py_is _ ESC)]].
  - destruct fss_info; [|reflexivity].
    simpl. apply Hmono. unfold getEffectiveSystemEirp. lra.
  - destruct fss_info; [|reflexivity].
    simpl. apply Hmono. unfold getEffectiveSystemEirp. lra.
  - destruct esc_antenna_info; [|reflexivity].
    simpl. apply Hmono. unfold getEffectiveSystemEirp. lra.
  - rewrite !run_bind, !run_computeInterferencePpaGwpzPoint.
    simpl. apply Hmono. unfold getEffectiveSystemEirp. lra.
Qed.

Lemma computeInterference_monotone_witness :
  Constraint.entity_type fss_blocking_constraint = EnumMember FSS_BLOCKING
  /\ Grant.low_frequency (example_grant 0 0 "A" (3650 * MHZ) (3660 * MHZ))
     < Grant.high_frequency (example_grant 0 0 "A" (3650 * MHZ) (3660 * MHZ))
  /\ (20 <= 30)%R
  /\ result_le
       (run (const_handler 0 100 6 0)
          (computeInterference
             (example_grant 0 0 "A" (3650 * MHZ) (3660 * MHZ)) 20
             fss_blocking_constraint (Some (Fss.mk 0 0 10 30 0 0)) None None))
       (run (const_handler 0 100 6 0)
          (computeInterference
             (example_grant 0 0 "A" (3650 * MHZ) (3660 * MHZ)) 30
             fss_blocking_constraint (Some (Fss.mk 0 0 10 30 0 0)) None None)).
Proof.
  split; [reflexivity|].
  split; [simpl; unfold MHZ; lia|].
  split; [lra|].
  apply (computeInterference_monotone (const_handler 0 100 6 0)
           (example_grant 0 0 "A" (3650 * MHZ) (3660 * MHZ))
           fss_blocking_constraint (Some (Fss.mk 0 0 10 30 0 0)) None None
           20 30).
  - intros _. simpl. unfold MHZ. lia.
  - lra.
Defined.

(** * Further properties of the module *)

(** ** Unit conversions *)

(** X2: on a positive power [dbToLinear] undoes [linearToDb]. *)
Theorem dbToLinear_linearToDb (x : R) :
  (0 < x)%R -> dbToLinear (linearToDb x) = x.
Proof.
  intros Hx. unfold dbToLinear, linearToDb, log10, Rpower.
  pose proof ln_10_pos as H10.
  replace (10 * (ln x / ln 10) / 10 * ln 10)%R with (ln x) by (field; lra).
  now apply exp_ln.
Qed.

Lemma dbToLinear_linearToDb_witness :
  (0 < 2)%R /\ dbToLinear (linearToDb 2) = 2%R.
Proof.
  split; [lra|]. apply (dbToLinear_linearToDb 2). lra.
Defined.

(** X3: a sum of dB values is a product of powers, a product of positive
    powers is a sum of dB values, and a converted power is positive. *)
Theorem db_sum_is_linear_product (x y a b : R) :
  (0 < a)%R -> (0 < b)%R ->
  dbToLinear (x + y) = (dbToLinear x * dbToLinear y)%R
  /\ linearToDb (a * b) = (linearToDb a + linearToDb b)%R
  /\ (0 < dbToLinear x)%R.
Proof.
  intros Ha Hb. repeat split.
  - unfold dbToLinear. rewrite <- Rpower_plus. f_equal. lra.
  - unfold linearToDb. rewrite (log10_mult a b Ha Hb). lra.
  - unfold dbToLinear, Rpower. apply exp_pos.
Qed.

Lemma db_sum_is_linear_product_witness :
  (0 < 2)%R /\ (0 < 3)%R
  /\ linearToDb (2 * 3) = (linearToDb 2 + linearToDb 3)%R.
Proof.
  split; [lra|]. split; [lra|].
  apply (db_sum_is_linear_product 0 0 2 3); lra.
Defined.

(** ** Channelizer: errors and edges *)

Lemma Ret_inj {A : Type} (a b : A) : Ret a = Ret b -> a = b.
Proof. intros H. congruence. Qed.

Lemma ceil_div_nonpos (a b : Z) : 0 < b -> a <= 0 -> ceil_div a b <= 0.
Proof.
  intros Hb Ha. pose proof (ceil_div_bounds a b Hb). nia.
Qed.

Lemma firstn_seq_le (n m k : nat) :
  (n <= m)%nat -> firstn n (seq k m) = seq k n.
Proof.
  revert m k. induction n as [|n IH]; intros m k Hle; [reflexivity|].
  destruct m as [|m]; [lia|]. simpl. f_equal. apply IH. lia.
Qed.

Lemma getProtectedChannels_Ret_lt (low high : Z) (l : list (Z * Z)) :
  getProtectedChannels low high = Ret l -> low < high.
Proof.
  unfold getProtectedChannels.
  destruct (Z.ltb_spec low high); [trivial | discriminate].
Qed.

Lemma getProtectedChannels_length (low high : Z) (l : list (Z * Z)) :
  getProtectedChannels low high = Ret l -> (List.length l <= 30)%nat.
Proof.
  intros Hret.
  pose proof (getProtectedChannels_Ret_lt low high l Hret) as Hlt.
  rewrite (getProtectedChannels_eq low high Hlt) in Hret.
  apply Ret_inj in Hret. subst l.
  assert (Hstep : 0 < 5 * MHZ) by (unfold MHZ; lia).
  set (start := Z.max low (3550 * MHZ)) in *.
  set (stop := Z.min high (3700 * MHZ)) in *.
  pose proof (ceil_div_bounds (stop - start) (5 * MHZ) Hstep) as Hc.
  set (n := ceil_div (stop - start) (5 * MHZ)) in *.
  clearbody n.
  assert (Hstart : 3550 * MHZ <= start) by (subst start; lia).
  assert (Hstop : stop <= 3700 * MHZ) by (subst stop; lia).
  clearbody start stop.
  rewrite length_map, length_seq.
  assert (n <= 30) by (unfold MHZ in *; lia). lia.
Qed.

(** X4: the channelizer returns a list exactly when low < high; on any
    other range it raises the assertion error and returns nothing. *)
Theorem getProtectedChannels_returns_iff (low high : Z) :
  ((exists l, getProtectedChannels low high = Ret l) <-> low < high)
  /\ (getProtectedChannels low high
      = Raise (AssertionError "Low frequency is greater than high frequency")
      <-> high <= low).
Proof.
  unfold getProtectedChannels.
  destruct (Z.ltb_spec low high) as [Hlt | Hge]; split; split;
    intros H; try lia; try (eexists; reflexivity);
    try discriminate; try reflexivity.
  destruct H as [l Hl]. discriminate.
Qed.

(** X5: a range with low < high that lies wholly at or above 3700 MHz, or
    wholly at or below 3550 MHz, has no protected channel: the result is
    the empty list, not an error. *)
Theorem getProtectedChannels_outside_band (low high : Z) :
  low < high -> 3700 * MHZ <= low \/ high <= 3550 * MHZ ->
  getProtectedChannels low high = Ret [].
Proof.
  intros Hlt Hout. rewrite (getProtectedChannels_eq low high Hlt).
  assert (Hstep : 0 < 5 * MHZ) by (unfold MHZ; lia).
  pose proof (ceil_div_nonpos
                (Z.min high (3700 * MHZ) - Z.max low (3550 * MHZ))
                (5 * MHZ) Hstep) as Hc.
  assert (E : Z.to_nat (ceil_div (Z.min high (3700 * MHZ)
                                  - Z.max low (3550 * MHZ)) (5 * MHZ)) = 0%nat).
  { apply Z2Nat.inj_0 || idtac. unfold MHZ in *. lia. }
  now rewrite E.
Qed.

Lemma getProtectedChannels_outside_band_witness :
  (3700 * MHZ < 4200 * MHZ
   /\ (3700 * MHZ <= 3700 * MHZ \/ 4200 * MHZ <= 3550 * MHZ))
  /\ getProtectedChannels (3700 * MHZ) (4200 * MHZ) = Ret [].
Proof.
  split; [unfold MHZ; lia|].
  apply (getProtectedChannels_outside_band (3700 * MHZ) (4200 * MHZ));
    unfold MHZ; lia.
Defined.

(** X6: whatever the range, the channelizer returns at most thirty
    channels, and the low edge of each lies in the range clipped to the
    band, [max(low, 3550 MHz) <= edge < min(high, 3700 MHz)]; the high
    edge, 5 MHz further, may lie above both the range and the band. *)
Theorem getProtectedChannels_bounds (low high : Z) (l : list (Z * Z)) :
  getProtectedChannels low high = Ret l ->
  (List.length l <= 30)%nat
  /\ forall ch, In ch l ->
       Z.max low (3550 * MHZ) <= fst ch < Z.min high (3700 * MHZ)
       /\ snd ch = fst ch + 5 * MHZ.
Proof.
  intros Hret.
  split; [exact (getProtectedChannels_length low high l Hret)|].
  pose proof (getProtectedChannels_Ret_lt low high l Hret) as Hlt.
  rewrite (getProtectedChannels_eq low high Hlt) in Hret.
  apply Ret_inj in Hret. subst l.
  assert (Hstep : 0 < 5 * MHZ) by (unfold MHZ; lia).
  set (start := Z.max low (3550 * MHZ)) in *.
  set (stop := Z.min high (3700 * MHZ)) in *.
  pose proof (ceil_div_bounds (stop - start) (5 * MHZ) Hstep) as Hc.
  set (n := ceil_div (stop - start) (5 * MHZ)) in *.
  clearbody n.
  assert (Hstart : 3550 * MHZ <= start) by (subst start; lia).
  assert (Hstop : stop <= 3700 * MHZ) by (subst stop; lia).
  clearbody start stop.
  - intros ch Hin. apply in_map_iff in Hin.
    destruct Hin as (i & <- & Hi). apply in_seq in Hi. simpl.
    split; [|reflexivity].
    assert (Z.of_nat i < n) by lia.
    unfold MHZ in *. lia.
Qed.

Lemma getProtectedChannels_bounds_witness :
  (List.length [ (3698 * MHZ, 3703 * MHZ)%Z ] <= 30)%nat
  /\ forall ch, In ch [ (3698 * MHZ, 3703 * MHZ) ] ->
       Z.max (3698 * MHZ) (3550 * MHZ) <= fst ch
         < Z.min (3710 * MHZ) (3700 * MHZ)
       /\ snd ch = fst ch + 5 * MHZ.
Proof.
  apply (getProtectedChannels_bounds (3698 * MHZ) (3710 * MHZ)).
  reflexivity.
Defined.

(** X7: for a range that starts at or below 3550 MHz the channels are
    the first channels of the 5 MHz raster of the band, as many as the
    result has; the whole band gives the thirty of them. *)
Theorem getProtectedChannels_band_raster (low high : Z) (l : list (Z * Z)) :
  low <= 3550 * MHZ ->
  getProtectedChannels low high = Ret l ->
  l = firstn (List.length l) band_channels
  /\ getProtectedChannels (3550 * MHZ) (3700 * MHZ) = Ret band_channels.
Proof.
  intros Hlow Hret. split; [|reflexivity].
  pose proof (getProtectedChannels_length low high l Hret) as Hlen.
  pose proof (getProtectedChannels_Ret_lt low high l Hret) as Hlt.
  rewrite (getProtectedChannels_eq low high Hlt) in Hret.
  apply Ret_inj in Hret. subst l.
  rewrite length_map, length_seq in *.
  unfold band_channels. rewrite firstn_map, firstn_seq_le by assumption.
  replace (Z.max low (3550 * MHZ)) with (3550 * MHZ) by lia.
  reflexivity.
Qed.

Lemma getProtectedChannels_band_raster_witness :
  3500 * MHZ <= 3550 * MHZ
  /\ [ (3550 * MHZ, 3555 * MHZ); (3555 * MHZ, 3560 * MHZ) ]
     = firstn 2 band_channels.
Proof.
  split; [unfold MHZ; lia|].
  apply (getProtectedChannels_band_raster (3500 * MHZ) (3557 * MHZ)
           [ (3550 * MHZ, 3555 * MHZ); (3555 * MHZ, 3560 * MHZ) ]).
  - unfold MHZ; lia.
  - reflexivity.
Defined.

(** ** Neighborhood filter: lookups, calls and composition *)

Lemma run_findGrantsInsideNeighborhood (h : Handler)
  (grants : list CbsdGrantInformation) (protection_point : R * R)
  (t : ProtectedEntityType) :
  run h (findGrantsInsideNeighborhood grants protection_point (EnumMember t))
  = Ok (filter (inside_neighborhood h protection_point t) grants).
Proof.
  unfold findGrantsInsideNeighborhood.
  rewrite (run_for_each_filter h (inside_neighborhood h protection_point t));
    [reflexivity|].
  intros acc g.
  destruct (subscript_distance t (Grant.cbsd_category g)) as (radii & Hs & Hr).
  unfold inside_neighborhood, distance_km.
  rewrite run_bind. unfold call. cbn [run].
  destruct (h _ (GeodesicDistanceBearing _ _ _ _)) as [[dist_km b1] b2].
  rewrite run_bind, Hs. cbn [run fst]. rewrite Hr.
  destruct (Rleb dist_km _); reflexivity.
Qed.

Lemma calls_for_each (h : Handler) {A S : Type} (ev : A -> Call)
  (body : S -> A -> Prog S) (l : list A) (s : S) :
  (forall s x, calls h (body s x) = [ev x]) ->
  (forall s x, exists s', run h (body s x) = Ok s') ->
  calls h (for_each l body s) = map ev l.
Proof.
  intros Hcalls Hrun. revert s.
  induction l as [|x l IH]; intros s; simpl; [reflexivity|].
  rewrite calls_bind, Hcalls.
  destruct (Hrun s x) as [s' ->]. simpl. now rewrite IH.
Qed.

(** X8: with an entity type that is no member of the enumeration the
    neighborhood filter fails on the first grant with [KeyError], after
    the distance of that grant has been asked for; on an empty list of
    grants it returns the empty list without any lookup. *)
Theorem findGrantsInsideNeighborhood_unknown_type (h : Handler)
  (grant : CbsdGrantInformation) (grants : list CbsdGrantInformation)
  (protection_point : R * R) (entity_type : PyObj) :
  (forall t, entity_type <> EnumMember t) ->
  run h (findGrantsInsideNeighborhood (grant :: grants) protection_point
           entity_type) = Err KeyError
  /\ calls h (findGrantsInsideNeighborhood (grant :: grants) protection_point
                entity_type) = [distance_call protection_point grant]
  /\ findGrantsInsideNeighborhood [] protection_point entity_type = Ret [].
Proof.
  intros Hunknown.
  destruct entity_type as [t | a b | name];
    [exfalso; now apply (Hunknown t) | |];
    unfold findGrantsInsideNeighborhood, distance_call; cbn [for_each];
    (repeat split; [rewrite run_bind | rewrite calls_bind]);
    unfold call; cbn [run calls bind];
    destruct (h _ (GeodesicDistanceBearing _ _ _ _)) as [[d b1] b2];
    reflexivity.
Qed.

Lemma findGrantsInsideNeighborhood_unknown_type_witness :
  run (const_handler 10 0 0 0)
      (findGrantsInsideNeighborhood
         [example_grant 0 0 "A" (3650 * MHZ) (3660 * MHZ)] (0, 0)%R
         (OtherObj "RADAR")) = Err KeyError.
Proof.
  apply (findGrantsInsideNeighborhood_unknown_type (const_handler 10 0 0 0)
           (example_grant 0 0 "A" (3650 * MHZ) (3660 * MHZ)) [] (0, 0)%R
           (OtherObj "RADAR")).
  discriminate.
Defined.

(** X9: for every known entity type the neighborhood filter asks the
    geodesic collaborator exactly once per input grant, in input order,
    from the grant to the protection point, and calls nothing else. *)
Theorem findGrantsInsideNeighborhood_calls (h : Handler)
  (grants : list CbsdGrantInformation) (protection_point : R * R)
  (t : ProtectedEntityType) :
  calls h (findGrantsInsideNeighborhood grants protection_point (EnumMember t))
  = map (distance_call protection_point) grants.
Proof.
  unfold findGrantsInsideNeighborhood.
  apply calls_for_each; intros acc g;
    destruct (subscript_distance t (Grant.cbsd_category g)) as (radii & Hs & Hr).
  - rewrite calls_bind. unfold call, distance_call. cbn [run calls].
    destruct (h _ (GeodesicDistanceBearing _ _ _ _)) as [[d b1] b2].
    rewrite calls_bind, Hs. cbn [run calls].
    destruct (Rleb d _); reflexivity.
  - rewrite run_bind. unfold call. cbn [run].
    destruct (h _ (GeodesicDistanceBearing _ _ _ _)) as [[d b1] b2].
    rewrite run_bind, Hs. cbn [run].
    destruct (Rleb d _); eexists; reflexivity.
Qed.

Lemma neighborhood_radius_le_150 (t : ProtectedEntityType) (category : string) :
  neighborhood_radius t category <= 150.
Proof.
  destruct t; simpl; try lia. destruct (String.eqb category "B"); lia.
Qed.

(** X10: the co-channel neighborhood is the widest: a grant that the
    filter returns for any known entity type is also returned, against
    the same point, for [FSS_CO_CHANNEL]. *)
Theorem findGrantsInsideNeighborhood_widest (h : Handler)
  (grants : list CbsdGrantInformation) (protection_point : R * R)
  (t : ProtectedEntityType) (l l' : list CbsdGrantInformation) :
  run h (findGrantsInsideNeighborhood grants protection_point (EnumMember t))
    = Ok l ->
  run h (findGrantsInsideNeighborhood grants protection_point
           (EnumMember FSS_CO_CHANNEL)) = Ok l' ->
  incl l l'.
Proof.
  rewrite !run_findGrantsInsideNeighborhood.
  intros Hl Hl'. injection Hl as <-. injection Hl' as <-.
  intros g Hin. apply filter_In in Hin. destruct Hin as [Hin Hins].
  apply filter_In. split; [assumption|].
  unfold inside_neighborhood in *. apply Rleb_le. apply Rleb_le in Hins.
  pose proof (neighborhood_radius_le_150 t (Grant.cbsd_category g)) as Hr.
  apply IZR_le in Hr. simpl neighborhood_radius. lra.
Qed.

Lemma findGrantsInsideNeighborhood_widest_witness :
  incl [example_grant 0 0 "A" (3650 * MHZ) (3660 * MHZ)]
       [example_grant 0 0 "A" (3650 * MHZ) (3660 * MHZ)].
Proof.
  apply (findGrantsInsideNeighborhood_widest (const_handler 10 0 0 0)
           [example_grant 0 0 "A" (3650 * MHZ) (3660 * MHZ)] (0, 0)%R ESC).
  - rewrite run_findGrantsInsideNeighborhood. simpl.
    unfold inside_neighborhood, distance_km, Rleb. simpl.
    destruct (Rle_dec 10 40); [reflexivity | lra].
  - rewrite run_findGrantsInsideNeighborhood. simpl.
    unfold inside_neighborhood, distance_km, Rleb. simpl.
    destruct (Rle_dec 10 150); [reflexivity | lra].
Defined.

(** ** Frequency-overlap filter: characterisation and composition *)

Lemma overlaps_iff (g : CbsdGrantInformation) (c : ProtectionConstraint) :
  overlaps g c = true
  <-> Grant.low_frequency g < Grant.high_frequency g
      /\ Constraint.low_frequency c < Constraint.high_frequency c
      /\ Grant.low_frequency g < Constraint.high_frequency c
      /\ Constraint.low_frequency c < Grant.high_frequency g.
Proof.
  unfold overlaps. rewrite Z.ltb_lt. lia.
Qed.

(** X11: for every known entity type, ESC included, and whatever the
    categories of the grants, the overlap filter returns the input
    grants, in input order, whose range meets the range of the
    constraint on more than a point: a grant is returned exactly when
    both ranges are non-empty, the grant starts below the high edge of
    the constraint and ends above its low edge.  A grant that only
    touches the constraint is left out. *)
Theorem findOverlappingGrants_characterisation
  (grants : list CbsdGrantInformation) (c : ProtectionConstraint)
  (t : ProtectedEntityType) :
  Constraint.entity_type c = EnumMember t ->
  exists l,
    findOverlappingGrants grants c = Ret l
    /\ l = filter (fun g => overlaps g c) grants
    /\ forall g, In g l <->
         In g grants
         /\ Grant.low_frequency g < Grant.high_frequency g
         /\ Constraint.low_frequency c < Constraint.high_frequency c
         /\ Grant.low_frequency g < Constraint.high_frequency c
         /\ Constraint.low_frequency c < Grant.high_frequency g.
Proof.
  intros Ht. eexists. split; [|split; [reflexivity|]].
  - unfold findOverlappingGrants.
    rewrite (for_each_filter (fun g => overlaps g c)); [reflexivity|].
    intros acc g. rewrite Ht. unfold overlaps.
    destruct t; simpl;
      match goal with |- context [0 <? ?w] => destruct (0 <? w) end;
      reflexivity.
  - intros g. rewrite filter_In, overlaps_iff. tauto.
Qed.

Lemma findOverlappingGrants_characterisation_witness :
  Constraint.entity_type esc_constraint_3670 = EnumMember ESC
  /\ exists l,
       findOverlappingGrants
         [example_grant 0 0 "A" (3640 * MHZ) (3650 * MHZ)] esc_constraint_3670
       = Ret l
       /\ l = filter (fun g => overlaps g esc_constraint_3670)
                [example_grant 0 0 "A" (3640 * MHZ) (3650 * MHZ)]
       /\ forall g, In g l <->
            In g [example_grant 0 0 "A" (3640 * MHZ) (3650 * MHZ)]
            /\ Grant.low_frequency g < Grant.high_frequency g
            /\ Constraint.low_frequency esc_constraint_3670
               < Constraint.high_frequency esc_constraint_3670
            /\ Grant.low_frequency g
               < Constraint.high_frequency esc_constraint_3670
            /\ Constraint.low_frequency esc_constraint_3670
               < Grant.high_frequency g.
Proof.
  split; [reflexivity|].
  apply (findOverlappingGrants_characterisation
           [example_grant 0 0 "A" (3640 * MHZ) (3650 * MHZ)]
           esc_constraint_3670 ESC).
  reflexivity.
Defined.

(** X12: with a constraint whose entity type is no member of the
    enumeration the overlap filter fails on the first grant with
    [KeyError], whether or not the grant overlaps; on an empty list of
    grants it returns the empty list. *)
Theorem findOverlappingGrants_unknown_type (grant : CbsdGrantInformation)
  (grants : list CbsdGrantInformation) (c : ProtectionConstraint) :
  (forall t, Constraint.entity_type c <> EnumMember t) ->
  findOverlappingGrants (grant :: grants) c = Raise KeyError
  /\ findOverlappingGrants [] c = Ret [].
Proof.
  intros Hunknown. split; [|reflexivity].
  unfold findOverlappingGrants. cbn [for_each].
  destruct (Constraint.entity_type c) as [t | a b | name];
    [exfalso; now apply (Hunknown t) | reflexivity | reflexivity].
Qed.

Lemma findOverlappingGrants_unknown_type_witness :
  findOverlappingGrants
    [example_grant 0 0 "A" (3600 * MHZ) (3610 * MHZ)] unknown_constraint
  = Raise KeyError.
Proof.
  apply (findOverlappingGrants_unknown_type
           (example_grant 0 0 "A" (3600 * MHZ) (3610 * MHZ)) []
           unknown_constraint).
  discriminate.
Defined.

Lemma filter_filter_andb {A : Type} (p q : A -> bool) (l : list A) :
  filter p (filter q l) = filter (fun x => q x && p x) l.
Proof.
  induction l as [|x l IH]; simpl; [reflexivity|].
  destruct (q x); simpl; [destruct (p x)|]; now rewrite IH.
Qed.

(** X13: for known entity types the two filters compose in either
    order: the neighborhood filter followed by the overlap filter and
    the overlap filter followed by the neighborhood filter both return
    the input grants, in input order, that are within their radius of
    the point and overlap the constraint. *)
Theorem filters_commute (h : Handler) (grants : list CbsdGrantInformation)
  (protection_point : R * R) (t t' : ProtectedEntityType)
  (c : ProtectionConstraint) :
  Constraint.entity_type c = EnumMember t' ->
  let both g := inside_neighborhood h protection_point t g && overlaps g c in
  run h (l <- findGrantsInsideNeighborhood grants protection_point
                (EnumMember t) ;;
         findOverlappingGrants l c) = Ok (filter both grants)
  /\ run h (l <- findOverlappingGrants grants c ;;
            findGrantsInsideNeighborhood l protection_point (EnumMember t))
     = Ok (filter both grants).
Proof.
  intros Ht both. split.
  - rewrite run_bind, run_findGrantsInsideNeighborhood.
    rewrite (findOverlappingGrants_overlap_only _ c t' Ht). cbn [run].
    now rewrite filter_filter_andb.
  - rewrite (findOverlappingGrants_overlap_only _ c t' Ht). cbn [bind].
    rewrite run_findGrantsInsideNeighborhood, filter_filter_andb.
    f_equal. apply filter_ext. intros g. apply andb_comm.
Qed.

Lemma filters_commute_witness :
  Constraint.entity_type esc_constraint_3670 = EnumMember ESC
  /\ run (const_handler 10 0 0 0)
       (l <- findGrantsInsideNeighborhood
               [example_grant 0 0 "A" (3650 * MHZ) (3660 * MHZ)] (0, 0)%R
               (EnumMember ESC) ;;
        findOverlappingGrants l esc_constraint_3670)
     = Ok (filter
             (fun g =>
                inside_neighborhood (const_handler 10 0 0 0) (0, 0)%R ESC g
                && overlaps g esc_constraint_3670)
             [example_grant 0 0 "A" (3650 * MHZ) (3660 * MHZ)]).
Proof.
  split; [reflexivity|].
  apply (filters_commute (const_handler 10 0 0 0)
           [example_grant 0 0 "A" (3650 * MHZ) (3660 * MHZ)] (0, 0)%R
           ESC ESC esc_constraint_3670).
  reflexivity.
Defined.

(** ** Extraction: what the returned grants satisfy *)

(** X14: every grant the extraction returns has an antenna height above
    ground between 1 m and 1000 m and carries the [is_managing_sas] flag
    of the call; there is one grant per grant record of the input. *)
Theorem getAllGrantInformationFromCbsdDataDump_output (h : Handler)
  (records : list Fad.CbsdData) (is_managing_sas : bool)
  (l : list CbsdGrantInformation) :
  run h (getAllGrantInformationFromCbsdDataDump records is_managing_sas)
    = Ok l ->
  (forall g, In g l ->
     (1 <= Grant.height_agl g <= 1000)%R
     /\ Grant.is_managed_grant g = is_managing_sas)
  /\ List.length l
     = list_sum (map (fun r => List.length (Fad.grants r)) records).
Proof.
  rewrite run_getAllGrantInformationFromCbsdDataDump.
  destruct (forallb (height_in_bounds h) records) eqn:Hall; [|discriminate].
  intros Hl. injection Hl as <-.
  rewrite forallb_forall in Hall. split.
  - intros g Hin. apply in_flat_map in Hin. destruct Hin as (r & Hr & Hg).
    unfold grants_of in Hg. cbv zeta in Hg. apply in_map_iff in Hg.
    destruct Hg as (grant & <- & _). simpl.
    split; [|reflexivity]. apply height_in_bounds_iff. now apply Hall.
  - clear Hall. induction records as [|r records IH]; simpl; [reflexivity|].
    rewrite length_app, IH. f_equal.
    unfold grants_of. cbv zeta. now rewrite length_map.
Qed.

Lemma getAllGrantInformationFromCbsdDataDump_output_witness :
  (forall g, In g (flat_map (grants_of (const_handler 0 0 0 0) true) [record_ok]) ->
     (1 <= Grant.height_agl g <= 1000)%R
     /\ Grant.is_managed_grant g = true)
  /\ List.length (flat_map (grants_of (const_handler 0 0 0 0) true) [record_ok])
     = list_sum (map (fun r => List.length (Fad.grants r)) [record_ok]).
Proof.
  apply (getAllGrantInformationFromCbsdDataDump_output
           (const_handler 0 0 0 0) [record_ok] true).
  rewrite run_getAllGrantInformationFromCbsdDataDump.
  assert (E : forallb (height_in_bounds (const_handler 0 0 0 0)) [record_ok]
              = true).
  { apply forallb_forall. intros r [<- | []].
    apply height_in_bounds_iff. unfold height_above_ground. simpl. lra. }
  now rewrite E.
Defined.

(** The calls of the extraction: the terrain calls of the records it
    goes through. *)
Lemma calls_getAllGrantInformationFromCbsdDataDump (h : Handler)
  (records : list Fad.CbsdData) (is_managing_sas : bool) :
  calls h (getAllGrantInformationFromCbsdDataDump records is_managing_sas)
  = terrain_calls (records_processed h records).
Proof.
  unfold getAllGrantInformationFromCbsdDataDump.
  match goal with |- context [for_each _ ?b _] => set (body := b) end.
  assert (Hrun : forall acc r,
             run h (body acc r) =
             if height_in_bounds h r
             then Ok (acc ++ grants_of h is_managing_sas r)
             else Err (ValueError height_error)).
  { intros acc r. unfold body, height_in_bounds, grants_of, height_above_ground.
    cbv zeta. rewrite run_bind.
    destruct (String.eqb _ "AMSL"); cbn [call bind run];
      match goal with |- context [Rltb ?a 1 || Rltb 1000 ?a] =>
        destruct (Rltb a 1 || Rltb 1000 a) end;
      cbn [negb run]; try reflexivity;
      now rewrite (fold_left_append_map
                     (fun grant =>
                        Grant.mk _ _ _ _ _ _ _ _ _ _ _ is_managing_sas)). }
  assert (Hcalls : forall acc r,
             calls h (body acc r) = terrain_calls [r]).
  { intros acc r. unfold body, terrain_calls. cbv zeta. cbn [flat_map].
    rewrite app_nil_r, calls_bind.
    destruct (String.eqb _ "AMSL"); cbn [call bind run calls];
      match goal with |- context [Rltb ?a 1 || Rltb 1000 ?a] =>
        destruct (Rltb a 1 || Rltb 1000 a) end;
      reflexivity. }
  clearbody body.
  generalize (@nil CbsdGrantInformation) as acc.
  induction records as [|r records IH]; intros acc; [reflexivity|].
  cbn [for_each records_processed].
  rewrite calls_bind, Hcalls, Hrun.
  destruct (height_in_bounds h r).
  - rewrite IH. unfold terrain_calls. cbn [flat_map]. now rewrite app_nil_r.
  - now rewrite app_nil_r.
Qed.

Lemma records_processed_all (h : Handler) (records : list Fad.CbsdData) :
  forallb (height_in_bounds h) records = true ->
  records_processed h records = records.
Proof.
  induction records as [|r records IH]; simpl; [reflexivity|].
  intros Hall. apply andb_true_iff in Hall. destruct Hall as [-> Hall].
  now rewrite IH.
Qed.

Lemma terrain_calls_no_amsl (records : list Fad.CbsdData) :
  (forall r, In r records ->
     String.eqb (Fad.heightType (Fad.installationParam
                                   (Fad.registrationRequest r))) "AMSL"
     = false) ->
  terrain_calls records = [].
Proof.
  induction records as [|r records IH]; intros Hno; [reflexivity|].
  unfold terrain_calls in *. cbn [flat_map]. cbv zeta.
  rewrite (Hno r (or_introl eq_refl)). simpl.
  apply IH. intros r' Hin. apply Hno. now right.
Qed.

Lemma records_processed_incl (h : Handler) (records : list Fad.CbsdData) :
  incl (records_processed h records) records.
Proof.
  induction records as [|r records IH]; simpl; [apply incl_refl|].
  destruct (height_in_bounds h r).
  - apply incl_cons; [now left|]. now apply incl_tl.
  - intros x [<- | []]. now left.
Qed.

(** X15: the extraction asks for the terrain elevation once for each
    record whose height type is AMSL, in order, up to and with the first
    record that fails the height check, and calls no other
    collaborator: for all records when every height passes the check,
    and never when no record has the height type AMSL. *)
Theorem getAllGrantInformationFromCbsdDataDump_calls (h : Handler)
  (records : list Fad.CbsdData) (is_managing_sas : bool) :
  calls h (getAllGrantInformationFromCbsdDataDump records is_managing_sas)
  = terrain_calls (records_processed h records)
  /\ ((forall r, In r records -> (1 <= height_above_ground h r <= 1000)%R) ->
      calls h (getAllGrantInformationFromCbsdDataDump records is_managing_sas)
      = terrain_calls records)
  /\ ((forall r, In r records ->
         String.eqb (Fad.heightType (Fad.installationParam
                                       (Fad.registrationRequest r))) "AMSL"
         = false) ->
      calls h (getAllGrantInformationFromCbsdDataDump records is_managing_sas)
      = []).
Proof.
  rewrite calls_getAllGrantInformationFromCbsdDataDump.
  split; [reflexivity|]. split.
  - intros Hall. rewrite records_processed_all; [reflexivity|].
    apply forallb_forall. intros r Hin. apply height_in_bounds_iff. auto.
  - intros Hno. apply terrain_calls_no_amsl.
    intros r Hin. apply Hno. now apply (records_processed_incl h records).
Qed.

Lemma getAllGrantInformationFromCbsdDataDump_calls_witness :
  calls (const_handler 0 0 0 0)
        (getAllGrantInformationFromCbsdDataDump [record_ok; record_too_low] true)
  = [].
Proof.
  apply (getAllGrantInformationFromCbsdDataDump_calls (const_handler 0 0 0 0)
           [record_ok; record_too_low] true).
  intros r [<- | [<- | []]]; reflexivity.
Defined.

(** ** Extraction from the activity dumps *)

Lemma run_for_each_app (h : Handler) {A S : Type} (body : S -> A -> Prog S)
  (l1 l2 : list A) (s : S) :
  run h (for_each (l1 ++ l2) body s) =
  match run h (for_each l1 body s) with
  | Ok s' => run h (for_each l2 body s')
  | Err e => Err e
  end.
Proof.
  revert s. induction l1 as [|x l1 IH]; intros s; simpl; [reflexivity|].
  rewrite !run_bind. destruct (run h (body s x)); [apply IH | reflexivity].
Qed.

Lemma run_for_each_nested (h : Handler) {S : Type}
  (body : S -> Fad.CbsdData -> Prog S)
  (fads : list Fad.FullActivityDump) (s : S) :
  run h (for_each fads
           (fun s fad => for_each (Fad.getCbsdRecords fad) body s) s)
  = run h (for_each (all_records fads) body s).
Proof.
  revert s. induction fads as [|fad fads IH]; intros s; [reflexivity|].
  cbn [for_each all_records flat_map].
  rewrite run_bind, run_for_each_app.
  destruct (run h (for_each (Fad.getCbsdRecords fad) body s));
    [apply IH | reflexivity].
Qed.

(** The loop over the test-harness records: it extracts again the whole
    list gathered so far each time it adds a record. *)
Lemma run_test_harness_loop (h : Handler) (records lst : list Fad.CbsdData)
  (g : option (list CbsdGrantInformation)) :
  forallb (height_in_bounds h) lst = true ->
  run h (for_each records
           (fun (st : list Fad.CbsdData * option (list CbsdGrantInformation))
                cbsds =>
              let cbsd_list_th := fst st ++ [cbsds] in
              grant_objects_test_harness <-
                getAllGrantInformationFromCbsdDataDump cbsd_list_th false ;;
              Ret (cbsd_list_th, Some grant_objects_test_harness))
           (lst, g))
  = if forallb (height_in_bounds h) records
    then Ok (lst ++ records,
             match records with
             | [] => g
             | _ :: _ => Some (flat_map (grants_of h false) (lst ++ records))
             end)
    else Err (ValueError height_error).
Proof.
  revert lst g. induction records as [|r records IH]; intros lst g Hlst.
  - simpl. now rewrite app_nil_r.
  - cbn [for_each forallb fst]. cbv zeta.
    rewrite !run_bind, run_getAllGrantInformationFromCbsdDataDump.
    rewrite forallb_app, Hlst. cbn [forallb andb].
    rewrite andb_true_r.
    destruct (height_in_bounds h r) eqn:Hr; [|reflexivity].
    cbn [run andb]. rewrite IH.
    + destruct (forallb (height_in_bounds h) records); [|reflexivity].
      rewrite <- app_assoc. cbn [app].
      destruct records; reflexivity.
    + rewrite forallb_app, Hlst. simpl. now rewrite Hr.
Qed.

Lemma run_getGrantObjectsFromFAD (h : Handler)
  (sas_uut_fad_object : Fad.FullActivityDump)
  (sas_th_fad_objects : list Fad.FullActivityDump) :
  run h (getGrantObjectsFromFAD sas_uut_fad_object sas_th_fad_objects) =
  if forallb (height_in_bounds h) (Fad.getCbsdRecords sas_uut_fad_object)
  then
    match all_records sas_th_fad_objects with
    | [] => Err (UnboundLocalError "grant_objects_test_harness")
    | _ :: _ =>
        if forallb (height_in_bounds h) (all_records sas_th_fad_objects)
        then Ok (flat_map (grants_of h true)
                   (Fad.getCbsdRecords sas_uut_fad_object)
                 ++ flat_map (grants_of h false)
                      (all_records sas_th_fad_objects))
        else Err (ValueError height_error)
    end
  else Err (ValueError height_error).
Proof.
  unfold getGrantObjectsFromFAD. cbv zeta.
  rewrite fold_left_append_id, run_bind.
  rewrite run_getAllGrantInformationFromCbsdDataDump.
  destruct (forallb (height_in_bounds h) (Fad.getCbsdRecords _));
    [|reflexivity].
  rewrite run_bind, run_for_each_nested.
  rewrite (run_test_harness_loop h _ [] None eq_refl).
  destruct (all_records sas_th_fad_objects) as [|r rs]; [reflexivity|].
  destruct (forallb (height_in_bounds h) (r :: rs)); reflexivity.
Qed.

(** X16: when every record of the dump under test and of the
    test-harness dumps has a height above ground between 1 m and 1000 m
    and the test-harness dumps hold at least one record,
    [getGrantObjectsFromFAD] returns the grants of the dump under test,
    flagged as managed, followed by the grants of all test-harness
    records, dump after dump, flagged as not managed. *)
Theorem getGrantObjectsFromFAD_success (h : Handler)
  (sas_uut_fad_object : Fad.FullActivityDump)
  (sas_th_fad_objects : list Fad.FullActivityDump) :
  (forall r, In r (Fad.getCbsdRecords sas_uut_fad_object) ->
             (1 <= height_above_ground h r <= 1000)%R) ->
  (forall r, In r (all_records sas_th_fad_objects) ->
             (1 <= height_above_ground h r <= 1000)%R) ->
  all_records sas_th_fad_objects <> [] ->
  run h (getGrantObjectsFromFAD sas_uut_fad_object sas_th_fad_objects)
  = Ok (flat_map (grants_of h true) (Fad.getCbsdRecords sas_uut_fad_object)
        ++ flat_map (grants_of h false) (all_records sas_th_fad_objects)).
Proof.
  intros Huut Hth Hne. rewrite run_getGrantObjectsFromFAD.
  assert (E1 : forallb (height_in_bounds h)
                 (Fad.getCbsdRecords sas_uut_fad_object) = true).
  { apply forallb_forall. intros r Hin. apply height_in_bounds_iff. auto. }
  assert (E2 : forallb (height_in_bounds h)
                 (all_records sas_th_fad_objects) = true).
  { apply forallb_forall. intros r Hin. apply height_in_bounds_iff. auto. }
  rewrite E1, E2.
  destruct (all_records sas_th_fad_objects); [contradiction | reflexivity].
Qed.

Lemma getGrantObjectsFromFAD_success_witness :
  run (const_handler 0 0 0 0)
      (getGrantObjectsFromFAD fad_uut [fad_without_records; fad_uut])
  = Ok (flat_map (grants_of (const_handler 0 0 0 0) true) [record_ok]
        ++ flat_map (grants_of (const_handler 0 0 0 0) false) [record_ok]).
Proof.
  apply (getGrantObjectsFromFAD_success (const_handler 0 0 0 0) fad_uut
           [fad_without_records; fad_uut]).
  - intros r [<- | []]. unfold height_above_ground. simpl. lra.
  - intros r [<- | []]. unfold height_above_ground. simpl. lra.
  - discriminate.
Defined.

(** X17: a test-harness record whose height above ground is below 1 m or
    above 1000 m makes [getGrantObjectsFromFAD] fail with the
    [ValueError] of the height check, also when every record of the dump
    under test is sound: no grant is returned. *)
Theorem getGrantObjectsFromFAD_bad_peer_record (h : Handler)
  (sas_uut_fad_object : Fad.FullActivityDump)
  (sas_th_fad_objects : list Fad.FullActivityDump) (bad : Fad.CbsdData) :
  In bad (all_records sas_th_fad_objects) ->
  ~ (1 <= height_above_ground h bad <= 1000)%R ->
  run h (getGrantObjectsFromFAD sas_uut_fad_object sas_th_fad_objects)
  = Err (ValueError height_error).
Proof.
  intros Hin Hbad. rewrite run_getGrantObjectsFromFAD.
  destruct (forallb (height_in_bounds h) (Fad.getCbsdRecords _));
    [|reflexivity].
  destruct (all_records sas_th_fad_objects) as [|r rs] eqn:E;
    [contradiction|].
  destruct (forallb (height_in_bounds h) (r :: rs)) eqn:F; [|reflexivity].
  exfalso. apply Hbad. apply height_in_bounds_iff.
  rewrite forallb_forall in F. now apply F.
Qed.

Lemma getGrantObjectsFromFAD_bad_peer_record_witness :
  run (const_handler 0 0 0 0)
      (getGrantObjectsFromFAD fad_uut [Fad.mkFullActivityDump [record_too_low]])
  = Err (ValueError height_error).
Proof.
  apply (getGrantObjectsFromFAD_bad_peer_record (const_handler 0 0 0 0)
           fad_uut [Fad.mkFullActivityDump [record_too_low]] record_too_low).
  - simpl. auto.
  - unfold height_above_ground. simpl. lra.
Defined.

(** ** Dispatcher: values, errors and calls *)

(** The dispatcher once the collaborators answer: the converted value of
    the formula of the tag, or [AttributeError] when the auxiliary
    record of the tag is [None]. *)
Lemma run_computeInterference (h : Handler) (grant : CbsdGrantInformation)
  (eirp : R) (c : ProtectionConstraint)
  (fss_info : option FssProtectionPoint)
  (esc_antenna_info : option EscInformation) (region_type : option string) :
  run h (computeInterference grant eirp c fss_info esc_antenna_info region_type)
  = if py_is (Constraint.entity_type c) FSS_CO_CHANNEL then
      match fss_info with
      | Some f =>
          result_map dbToLinear
            (run h (computeInterferenceFssCochannel grant c f eirp))
      | None => Err AttributeError
      end
    else if py_is (Constraint.entity_type c) FSS_BLOCKING then
      match fss_info with
      | Some f =>
          result_map dbToLinear
            (run h (computeInterferenceFssBlocking grant c f eirp))
      | None => Err AttributeError
      end
    else if py_is (Constraint.entity_type c) ESC then
      match esc_antenna_info with
      | Some i =>
          result_map dbToLinear (run h (computeInterferenceEsc grant c i eirp))
      | None => Err AttributeError
      end
    else
      result_map dbToLinear
        (run h (computeInterferencePpaGwpzPoint grant c GWPZ_PPA_HEIGHT eirp
                  region_type)).
Proof.
  unfold computeInterference.
  destruct (py_is _ FSS_CO_CHANNEL);
    [|destruct (py_is _ FSS_BLOCKING); [|destruct (py_is _ ESC)]];
    try (destruct fss_info; reflexivity);
    try (destruct esc_antenna_info; reflexivity).
  rewrite run_bind. now destruct (run h _).
Qed.

(** Each formula returns a value that is the EIRP argument plus a term
    that does not depend on it. *)
Lemma run_formulas_affine (h : Handler) (grant : CbsdGrantInformation)
  (c : ProtectionConstraint) (f : FssProtectionPoint) (i : EscInformation)
  (region : option string) (height : R) :
  exists k1 k2 k3 k4 : R,
    forall eirp,
      run h (computeInterferenceFssCochannel grant c f eirp) = Ok (eirp + k1)%R
      /\ run h (computeInterferenceFssBlocking grant c f eirp) = Ok (eirp + k2)%R
      /\ run h (computeInterferenceEsc grant c i eirp) = Ok (eirp + k3)%R
      /\ run h (computeInterferencePpaGwpzPoint grant c height eirp region)
         = Ok (eirp + k4)%R.
Proof.
  do 4 eexists. intros eirp.
  rewrite run_computeInterferencePpaGwpzPoint.
  repeat split; simpl; f_equal; unfold getEffectiveSystemEirp;
    match goal with
    | |- (?a - ?g + ?e + ?l - ?x - ?y)%R = _ =>
        instantiate (1 := (- g + e + l - x - y)%R); lra
    | |- (?a - ?g + ?e + ?l - ?x)%R = _ =>
        instantiate (1 := (- g + e + l - x)%R); lra
    end.
Qed.

Lemma run_computeInterference_affine (h : Handler)
  (grant : CbsdGrantInformation) (c : ProtectionConstraint)
  (fss_info : option FssProtectionPoint)
  (esc_antenna_info : option EscInformation) (region_type : option string) :
  (forall eirp,
      run h (computeInterference grant eirp c fss_info esc_antenna_info
               region_type) = Err AttributeError)
  \/ exists k : R,
       forall eirp,
         run h (computeInterference grant eirp c fss_info esc_antenna_info
                  region_type) = Ok (dbToLinear (eirp + k)).
Proof.
  destruct (run_formulas_affine h grant c
              (match fss_info with Some f => f | None => Fss.mk 0 0 0 0 0 0 end)
              (match esc_antenna_info with Some i => i | None => Esc.mk 0 0 0 [] end)
              region_type GWPZ_PPA_HEIGHT) as (k1 & k2 & k3 & k4 & Hk).
  destruct (py_is (Constraint.entity_type c) FSS_CO_CHANNEL) eqn:E1;
    [|destruct (py_is (Constraint.entity_type c) FSS_BLOCKING) eqn:E2;
      [|destruct (py_is (Constraint.entity_type c) ESC) eqn:E3]].
  - destruct fss_info as [f|].
    + right. exists k1. intros eirp. rewrite run_computeInterference, E1.
      destruct (Hk eirp) as (-> & _). reflexivity.
    + left. intros eirp. now rewrite run_computeInterference, E1.
  - destruct fss_info as [f|].
    + right. exists k2. intros eirp. rewrite run_computeInterference, E1, E2.
      destruct (Hk eirp) as (_ & -> & _). reflexivity.
    + left. intros eirp. now rewrite run_computeInterference, E1, E2.
  - destruct esc_antenna_info as [i|].
    + right. exists k3. intros eirp.
      rewrite run_computeInterference, E1, E2, E3.
      destruct (Hk eirp) as (_ & _ & -> & _). reflexivity.
    + left. intros eirp. now rewrite run_computeInterference, E1, E2, E3.
  - right. exists k4. intros eirp.
    rewrite run_computeInterference, E1, E2, E3.
    destruct (Hk eirp) as (_ & _ & _ & ->). reflexivity.
Qed.

(** X18: an interference that [computeInterference] returns is a
    strictly positive power, never zero and never negative, for a grant
    that has low < high where its bandwidth is used, under the
    [FSS_BLOCKING] tag. *)
Theorem computeInterference_positive (h : Handler)
  (grant : CbsdGrantInformation) (eirp : R) (c : ProtectionConstraint)
  (fss_info : option FssProtectionPoint)
  (esc_antenna_info : option EscInformation) (region_type : option string)
  (v : R) :
  (Constraint.entity_type c = EnumMember FSS_BLOCKING ->
   Grant.low_frequency grant < Grant.high_frequency grant) ->
  run h (computeInterference grant eirp c fss_info esc_antenna_info region_type)
    = Ok v ->
  (0 < v)%R.
Proof.
  intros _.
  destruct (run_computeInterference_affine h grant c fss_info esc_antenna_info
              region_type) as [Herr | [k Hk]].
  - rewrite Herr. discriminate.
  - rewrite Hk. intros H. injection H as <-.
    unfold dbToLinear, Rpower. apply exp_pos.
Qed.

Lemma computeInterference_positive_witness :
  Constraint.entity_type fss_blocking_constraint = EnumMember FSS_BLOCKING
  /\ Grant.low_frequency (example_grant 0 0 "A" (3650 * MHZ) (3660 * MHZ))
     < Grant.high_frequency (example_grant 0 0 "A" (3650 * MHZ) (3660 * MHZ))
  /\ (0 < dbToLinear
           (getEffectiveSystemEirp 30 6 (6 + 6)
              (Some (IZR (3660 * MHZ - 3650 * MHZ)))
            - getFssMaskLoss
                (example_grant 0 0 "A" (3650 * MHZ) (3660 * MHZ))
                fss_blocking_constraint
            - 100))%R.
Proof.
  split; [reflexivity|].
  split; [simpl; unfold MHZ; lia|].
  apply (computeInterference_positive (const_handler 0 100 6 0)
           (example_grant 0 0 "A" (3650 * MHZ) (3660 * MHZ)) 30
           fss_blocking_constraint (Some (Fss.mk 0 0 10 30 0 0)) None None).
  - intros _. simpl. unfold MHZ. lia.
  - reflexivity.
Defined.

(** X19: the interference is proportional to the radiated power: [d] dB
    more EIRP, everything else and the answers of the collaborators
    unchanged, multiply the returned interference by [10^(d/10)], and
    leave an error as it is. *)
Theorem computeInterference_scales_with_eirp (h : Handler)
  (grant : CbsdGrantInformation) (eirp d : R) (c : ProtectionConstraint)
  (fss_info : option FssProtectionPoint)
  (esc_antenna_info : option EscInformation) (region_type : option string) :
  run h (computeInterference grant (eirp + d) c fss_info esc_antenna_info
           region_type)
  = result_map (fun v => (v * dbToLinear d)%R)
      (run h (computeInterference grant eirp c fss_info esc_antenna_info
                region_type)).
Proof.
  destruct (run_computeInterference_affine h grant c fss_info esc_antenna_info
              region_type) as [Herr | [k Hk]].
  - now rewrite !Herr.
  - rewrite !Hk. simpl. f_equal.
    replace (eirp + d + k)%R with ((eirp + k) + d)%R by lra.
    unfold dbToLinear. rewrite <- Rpower_plus. f_equal. lra.
Qed.

(** X20: [computeInterference] fails only with [AttributeError], and
    exactly when the auxiliary record of the tag is [None]: [fss_info]
    for the two FSS tags, [esc_antenna_info] for the ESC tag.  It then
    has called no collaborator.  For every other tag it returns a value
    without any auxiliary record. *)
Theorem computeInterference_error_iff (h : Handler)
  (grant : CbsdGrantInformation) (eirp : R) (c : ProtectionConstraint)
  (fss_info : option FssProtectionPoint)
  (esc_antenna_info : option EscInformation) (region_type : option string)
  (e : Exception) :
  let tag := Constraint.entity_type c in
  let missing :=
    ((tag = EnumMember FSS_CO_CHANNEL \/ tag = EnumMember FSS_BLOCKING)
     /\ fss_info = None)
    \/ (tag = EnumMember ESC /\ esc_antenna_info = None) in
  (run h (computeInterference grant eirp c fss_info esc_antenna_info
            region_type) = Err e
   <-> e = AttributeError /\ missing)
  /\ (missing ->
      calls h (computeInterference grant eirp c fss_info esc_antenna_info
                 region_type) = []).
Proof.
  intros tag missing. subst missing.
  rewrite run_computeInterference. unfold computeInterference. fold tag.
  destruct (run_formulas_affine h grant c
              (match fss_info with Some f => f | None => Fss.mk 0 0 0 0 0 0 end)
              (match esc_antenna_info with Some i => i | None => Esc.mk 0 0 0 [] end)
              region_type GWPZ_PPA_HEIGHT) as (k1 & k2 & k3 & k4 & Hk).
  destruct (Hk eirp) as (H1 & H2 & H3 & H4).
  destruct (py_is tag FSS_CO_CHANNEL) eqn:E1;
    [apply py_is_member in E1
    |destruct (py_is tag FSS_BLOCKING) eqn:E2;
      [apply py_is_member in E2
      |destruct (py_is tag ESC) eqn:E3; [apply py_is_member in E3|]]].
  - destruct fss_info as [f|]; [rewrite H1|]; simpl; rewrite E1;
      (split; [split|]); try discriminate; try reflexivity.
    + intros (_ & [[_ Hn] | [Ht _]]); discriminate.
    + intros [[_ Hn] | [Ht _]]; discriminate.
    + intros H. injection H as <-. auto.
    + intros [-> _]. reflexivity.
  - destruct fss_info as [f|]; [rewrite H2|]; simpl; rewrite E2;
      (split; [split|]); try discriminate; try reflexivity.
    + intros (_ & [[_ Hn] | [Ht _]]); discriminate.
    + intros [[_ Hn] | [Ht _]]; discriminate.
    + intros H. injection H as <-. auto.
    + intros [-> _]. reflexivity.
  - destruct esc_antenna_info as [i|]; [rewrite H3|]; simpl; rewrite E3;
      (split; [split|]); try discriminate; try reflexivity.
    + intros (_ & [[[Ht | Ht] _] | [_ Hn]]); discriminate.
    + intros [[[Ht | Ht] _] | [_ Hn]]; discriminate.
    + intros H. injection H as <-. auto.
    + intros [-> _]. reflexivity.
  - rewrite H4. simpl.
    assert (N1 : tag <> EnumMember FSS_CO_CHANNEL)
      by (intros T; apply py_is_member in T; congruence).
    assert (N2 : tag <> EnumMember FSS_BLOCKING)
      by (intros T; apply py_is_member in T; congruence).
    assert (N3 : tag <> EnumMember ESC)
      by (intros T; apply py_is_member in T; congruence).
    split; [split|]; try discriminate.
    + intros (_ & [[[Ht | Ht] _] | [Ht _]]); contradiction.
    + intros [[[Ht | Ht] _] | [Ht _]]; contradiction.
Qed.

Lemma computeInterference_error_iff_witness :
  calls (const_handler 0 100 6 0)
        (computeInterference
           (example_grant 0 0 "A" (3650 * MHZ) (3660 * MHZ)) 30
           esc_constraint_3670 None None None) = [].
Proof.
  apply (computeInterference_error_iff (const_handler 0 100 6 0)
           (example_grant 0 0 "A" (3650 * MHZ) (3660 * MHZ)) 30
           esc_constraint_3670 None None None AttributeError).
  right. split; reflexivity.
Defined.

(** X21: which propagation model the dispatcher calls.  With its
    auxiliary record present, an FSS tag calls the ITM model once to the
    point at the height of the earth station and the ESC tag calls it
    once at the height of the sensor antenna; any other tag calls the
    hybrid model once at a receiver height of 1.5 m with the region
    passed in, unless the grant has the coordinates of the point, when
    no propagation model is called.  In every case the propagation
    frequency is 3625 MHz and at most one call is made. *)
Theorem computeInterference_propagation_calls (h : Handler)
  (grant : CbsdGrantInformation) (eirp : R) (c : ProtectionConstraint)
  (fss_info : FssProtectionPoint) (esc_antenna_info : EscInformation)
  (region_type : option string) :
  let tag := Constraint.entity_type c in
  propagation_calls h
    (computeInterference grant eirp c (Some fss_info) (Some esc_antenna_info)
       region_type)
  = (if py_is tag FSS_CO_CHANNEL || py_is tag FSS_BLOCKING then
       [itm_call grant c (Fss.height_agl fss_info)]
     else if py_is tag ESC then
       [itm_call grant c (Esc.antenna_height esc_antenna_info)]
     else if colocated grant c then []
     else [hybrid_call grant c 1.5%R region_type])
  /\ (List.length
        (propagation_calls h
           (computeInterference grant eirp c (Some fss_info)
              (Some esc_antenna_info) region_type)) <= 1)%nat
  /\ FREQ_PROP_MODEL_MHZ = 3625%R.
Proof.
  intros tag.
  assert (E : propagation_calls h
                (computeInterference grant eirp c (Some fss_info)
                   (Some esc_antenna_info) region_type)
              = (if py_is tag FSS_CO_CHANNEL || py_is tag FSS_BLOCKING then
                   [itm_call grant c (Fss.height_agl fss_info)]
                 else if py_is tag ESC then
                   [itm_call grant c (Esc.antenna_height esc_antenna_info)]
                 else if colocated grant c then []
                 else [hybrid_call grant c 1.5%R region_type])).
  { unfold computeInterference, propagation_calls. fold tag.
    destruct (py_is tag FSS_CO_CHANNEL); [reflexivity|].
    destruct (py_is tag FSS_BLOCKING); [reflexivity|].
    destruct (py_is tag ESC); [reflexivity|].
    unfold computeInterferencePpaGwpzPoint, colocated. cbn [orb].
    destruct (Reqb _ _ && Reqb _ _); reflexivity. }
  split; [exact E|]. split; [|reflexivity].
  rewrite E.
  destruct (py_is tag FSS_CO_CHANNEL || py_is tag FSS_BLOCKING);
    [simpl; lia|].
  destruct (py_is tag ESC); [simpl; lia|].
  destruct (colocated grant c); simpl; lia.
Qed.

(** X22: the dispatcher never reads the [max_eirp] of the grant nor its
    [is_managed_grant] flag: the power it uses is its [eirp] argument
    alone, and two grants that differ in these two fields only give the
    same program. *)
Theorem computeInterference_ignores_grant_max_eirp
  (grant : CbsdGrantInformation) (max_eirp eirp : R) (managed : bool)
  (c : ProtectionConstraint) (fss_info : option FssProtectionPoint)
  (esc_antenna_info : option EscInformation) (region_type : option string) :
  computeInterference (grant_with_max_eirp grant max_eirp managed) eirp c
    fss_info esc_antenna_info region_type
  = computeInterference grant eirp c fss_info esc_antenna_info region_type.
Proof.
  destruct grant. reflexivity.
Qed.

(** X23: unless the tag is [FSS_BLOCKING], the dispatcher reads no
    frequency: the interference does not depend on the frequency range
    of the grant nor on that of the constraint, and so not on how much
    of the grant lies in the protected channel. *)
Theorem computeInterference_ignores_frequencies
  (grant : CbsdGrantInformation) (eirp : R) (c : ProtectionConstraint)
  (glow ghigh clow chigh : Z)
  (fss_info : option FssProtectionPoint)
  (esc_antenna_info : option EscInformation) (region_type : option string) :
  Constraint.entity_type c <> EnumMember FSS_BLOCKING ->
  computeInterference (grant_with_frequencies grant glow ghigh) eirp
    (constraint_with_frequencies c clow chigh)
    fss_info esc_antenna_info region_type
  = computeInterference grant eirp c fss_info esc_antenna_info region_type.
Proof.
  intros Hnb. destruct grant, c. unfold computeInterference.
  cbn [constraint_with_frequencies Constraint.entity_type] in *.
  rewrite (py_is_other _ FSS_BLOCKING Hnb).
  destruct (py_is entity_type FSS_CO_CHANNEL); [reflexivity|].
  destruct (py_is entity_type ESC); reflexivity.
Qed.

Lemma computeInterference_ignores_frequencies_witness :
  computeInterference
    (grant_with_frequencies
       (example_grant 0 0 "A" (3650 * MHZ) (3660 * MHZ))
       (3550 * MHZ) (3700 * MHZ)) 30
    (constraint_with_frequencies esc_constraint_3670 (3550 * MHZ) (3555 * MHZ))
    None (Some example_esc) None
  = computeInterference
      (example_grant 0 0 "A" (3650 * MHZ) (3660 * MHZ)) 30
      esc_constraint_3670 None (Some example_esc) None.
Proof.
  apply (computeInterference_ignores_frequencies
           (example_grant 0 0 "A" (3650 * MHZ) (3660 * MHZ)) 30
           esc_constraint_3670 (3550 * MHZ) (3700 * MHZ)
           (3550 * MHZ) (3555 * MHZ) None (Some example_esc) None).
  discriminate.
Defined.

(** ** Blocking against co-channel *)

(** X24: on the same grant, constraint and earth station, and with the
    same answers of the collaborators, the blocking formula is the
    co-channel formula with the reference bandwidth of 5 MHz replaced by
    the bandwidth of the grant and the 0.5 dB insertion loss replaced by
    the mask loss.  For a grant 5 MHz wide that lies above the low edge
    of the passband the two formulas give the same value. *)
Theorem computeInterferenceFssBlocking_vs_cochannel (h : Handler)
  (cbsd_grant : CbsdGrantInformation) (constraint : ProtectionConstraint)
  (fss_info : FssProtectionPoint) (max_eirp : R) :
  exists cochannel : R,
    run h (computeInterferenceFssCochannel cbsd_grant constraint fss_info
             max_eirp) = Ok cochannel
    /\ run h (computeInterferenceFssBlocking cbsd_grant constraint fss_info
                max_eirp)
       = Ok (cochannel
             + (linearToDb (IZR (Grant.high_frequency cbsd_grant
                                 - Grant.low_frequency cbsd_grant) / IZR MHZ)
                - linearToDb 5)
             + (IN_BAND_INSERTION_LOSS - getFssMaskLoss cbsd_grant constraint))%R
    /\ (Grant.high_frequency cbsd_grant - Grant.low_frequency cbsd_grant
          = 5 * MHZ ->
        Constraint.low_frequency constraint < Grant.low_frequency cbsd_grant ->
        run h (computeInterferenceFssBlocking cbsd_grant constraint fss_info
                 max_eirp) = Ok cochannel).
Proof.
  eexists. split; [reflexivity|].
  assert (E5 : (IZR IAPBW_HZ / IZR MHZ)%R = 5%R).
  { unfold IAPBW_HZ, MHZ. simpl. lra. }
  split.
  - simpl. f_equal. unfold getEffectiveSystemEirp. rewrite E5. lra.
  - intros Hbw Hlow. simpl. f_equal.
    assert (Hm : getFssMaskLoss cbsd_grant constraint = 0.5%R).
    { unfold getFssMaskLoss, mask_cond1.
      assert (L1 : (Constraint.low_frequency constraint
                    <? Grant.low_frequency cbsd_grant) = true)
        by (apply Z.ltb_lt; lia).
      assert (L2 : (Constraint.low_frequency constraint
                    <? Grant.high_frequency cbsd_grant) = true)
        by (apply Z.ltb_lt; unfold MHZ in *; lia).
      now rewrite L1, L2. }
    rewrite Hm. unfold getEffectiveSystemEirp. rewrite Hbw.
    unfold IN_BAND_INSERTION_LOSS, IAPBW_HZ. lra.
Qed.

Lemma computeInterferenceFssBlocking_vs_cochannel_witness :
  exists cochannel : R,
    run (const_handler 0 100 6 0)
        (computeInterferenceFssCochannel
           (example_grant 0 0 "A" (3650 * MHZ) (3655 * MHZ))
           fss_blocking_constraint (Fss.mk 0 0 10 30 0 0) 30) = Ok cochannel
    /\ run (const_handler 0 100 6 0)
           (computeInterferenceFssBlocking
              (example_grant 0 0 "A" (3650 * MHZ) (3655 * MHZ))
              fss_blocking_constraint (Fss.mk 0 0 10 30 0 0) 30) = Ok cochannel.
Proof.
  destruct (computeInterferenceFssBlocking_vs_cochannel
              (const_handler 0 100 6 0)
              (example_grant 0 0 "A" (3650 * MHZ) (3655 * MHZ))
              fss_blocking_constraint (Fss.mk 0 0 10 30 0 0) 30)
    as (v & Hco & _ & Hsame).
  exists v. split; [exact Hco|].
  apply Hsame; simpl; unfold MHZ; lia.
Defined.

(** ** Blocking mask loss: what it depends on *)

Ltac ltb_cases_pruned :=
  repeat match goal with
         | |- context [?a <? ?b] =>
             destruct (Z.ltb_spec a b); try (exfalso; lia)
         end.

(** X25: the mask loss depends on the distances between the edges of
    the grant and the low edge of the passband only: it never reads the
    high edge of the constraint, and moving the grant and the passband
    by the same amount leaves it unchanged. *)
Theorem getFssMaskLoss_translation (g : CbsdGrantInformation)
  (c : ProtectionConstraint) (d chigh : Z) :
  getFssMaskLoss
    (grant_with_frequencies g (Grant.low_frequency g + d)
       (Grant.high_frequency g + d))
    (constraint_with_frequencies c (Constraint.low_frequency c + d) chigh)
  = getFssMaskLoss g c.
Proof.
  destruct g as [? ? ? ? ? ? ? ? ? gl gh ?], c as [? ? cl ch ?].
  unfold getFssMaskLoss, mask_cond1, mask_cond2, mask_cond3, mask_cond4,
    mask_offset, grant_with_frequencies, constraint_with_frequencies.
  cbn [Grant.low_frequency Grant.high_frequency Constraint.low_frequency].
  generalize (50 * MHZ). intros k.
  replace (gh + d - (gl + d)) with (gh - gl) by lia.
  replace (cl + d - k - (gl + d)) with (cl - k - gl) by lia.
  replace (gh + d - (cl + d - k)) with (gh - (cl - k)) by lia.
  ltb_cases_pruned; reflexivity.
Qed.

Lemma linearToDb_nonneg_iff (y : R) :
  (0 < y)%R -> (0 <= linearToDb y <-> 1 <= y)%R.
Proof.
  intros Hy. unfold linearToDb, log10.
  pose proof ln_10_pos as H10.
  pose proof (Rinv_0_lt_compat _ H10) as Hinv.
  unfold Rdiv. split.
  - intros Hdb.
    destruct (Rle_lt_dec 1 y) as [Hle | Hlt]; [assumption|].
    pose proof (ln_increasing y 1 Hy Hlt) as Hln. rewrite ln_1 in Hln.
    exfalso. nra.
  - intros Hle. destruct Hle as [Hlt | <-].
    + pose proof (ln_increasing 1 y Rlt_0_1 Hlt) as Hln. rewrite ln_1 in Hln.
      nra.
    + rewrite ln_1. lra.
Qed.

(** X26: the mask loss can be negative.  For a grant with low < high
    that ends below the offset it is non-negative exactly when the grant
    is at least 4 MHz wide, and for a grant that lies strictly between
    the offset and the passband exactly when three times its bandwidth
    reach 5 MHz; a narrower grant gets a negative loss, that is, more
    interference than without the mask. *)
Theorem getFssMaskLoss_sign (g : CbsdGrantInformation)
  (c : ProtectionConstraint) :
  Grant.low_frequency g < Grant.high_frequency g ->
  let glow := Grant.low_frequency g in
  let ghigh := Grant.high_frequency g in
  let clow := Constraint.low_frequency c in
  let offset := clow - 50 * MHZ in
  (ghigh < offset ->
   ((0 <= getFssMaskLoss g c)%R <-> 4 * MHZ <= ghigh - glow))
  /\ (offset < glow -> ghigh < clow ->
      ((0 <= getFssMaskLoss g c)%R <-> 5 * MHZ <= 3 * (ghigh - glow))).
Proof.
  intros Hg. cbv zeta.
  unfold getFssMaskLoss, mask_cond1, mask_cond2, mask_cond3, mask_cond4,
    mask_offset.
  assert (HM : 50 * MHZ = 50000000) by reflexivity.
  revert Hg HM.
  generalize (Grant.low_frequency g) (Grant.high_frequency g)
    (Constraint.low_frequency c) (50 * MHZ).
  intros glow ghigh clow fifty Hg HM.
  assert (Hbw : (0 < IZR (ghigh - glow))%R) by (apply IZR_lt; lia).
  split.
  - intros Hbelow. ltb_cases_pruned. cbn [andb].
    rewrite linearToDb_nonneg_iff by (unfold MHZ; lra).
    unfold MHZ. change (4 * 1000000) with 4000000. split.
    + intros Hdb. apply le_IZR. lra.
    + intros Hw. apply IZR_le in Hw. lra.
  - intros Habove Hbelow. ltb_cases_pruned. cbn [andb].
    rewrite linearToDb_nonneg_iff by (unfold MHZ; lra).
    unfold MHZ. change (5 * 1000000) with 5000000. split.
    + intros Hdb. apply le_IZR. rewrite mult_IZR. lra.
    + intros Hw. apply IZR_le in Hw. rewrite mult_IZR in Hw. lra.
Qed.

Lemma getFssMaskLoss_sign_witness :
  Grant.low_frequency (example_grant 0 0 "A" (3500 * MHZ) (3502 * MHZ))
    < Grant.high_frequency (example_grant 0 0 "A" (3500 * MHZ) (3502 * MHZ))
  /\ ~ (0 <= getFssMaskLoss
               (example_grant 0 0 "A" (3500 * MHZ) (3502 * MHZ))
               fss_blocking_constraint)%R.
Proof.
  assert (Hlt : Grant.low_frequency
                  (example_grant 0 0 "A" (3500 * MHZ) (3502 * MHZ))
                < Grant.high_frequency
                    (example_grant 0 0 "A" (3500 * MHZ) (3502 * MHZ)))
    by (simpl; unfold MHZ; lia).
  split; [exact Hlt|].
  destruct (getFssMaskLoss_sign
              (example_grant 0 0 "A" (3500 * MHZ) (3502 * MHZ))
              fss_blocking_constraint Hlt) as [Hbelow _].
  intros Hnonneg. apply Hbelow in Hnonneg; simpl in *; unfold MHZ in *; lia.
Defined.

(** ** Effective EIRP: reference bandwidth *)

(** X27: a reference bandwidth of 1 MHz adds nothing to the effective
    EIRP, and a positive reference bandwidth multiplied by a positive
    factor [k] adds [10 log10 k] dB. *)
Theorem getEffectiveSystemEirp_bandwidth_factor
  (max_eirp cbsd_max_ant_gain effective_ant_gain reference_bandwidth k : R) :
  (0 < reference_bandwidth)%R -> (0 < k)%R ->
  getEffectiveSystemEirp max_eirp cbsd_max_ant_gain effective_ant_gain
    (Some 1000000%R)
  = (max_eirp - cbsd_max_ant_gain + effective_ant_gain)%R
  /\ getEffectiveSystemEirp max_eirp cbsd_max_ant_gain effective_ant_gain
       (Some (k * reference_bandwidth)%R)
     = (getEffectiveSystemEirp max_eirp cbsd_max_ant_gain effective_ant_gain
          (Some reference_bandwidth) + linearToDb k)%R.
Proof.
  intros Hbw Hk. unfold getEffectiveSystemEirp, linearToDb, MHZ. split.
  - replace (1000000 / 1000000)%R with 1%R by lra.
    unfold log10. rewrite ln_1. lra.
  - replace (k * reference_bandwidth / 1000000)%R
      with (k * (reference_bandwidth / 1000000))%R by lra.
    rewrite log10_mult; lra.
Qed.

Lemma getEffectiveSystemEirp_bandwidth_factor_witness :
  ((0 < 5000000)%R /\ (0 < 4)%R)
  /\ getEffectiveSystemEirp 30 6 4 (Some (4 * 5000000)%R)
     = (getEffectiveSystemEirp 30 6 4 (Some 5000000%R) + linearToDb 4)%R.
Proof.
  split; [split; lra|].
  apply (getEffectiveSystemEirp_bandwidth_factor 30 6 4 5000000 4); lra.
Defined.

(** ** Extraction from the activity dumps: repeated work *)

Lemma calls_for_each_app (h : Handler) {A S : Type} (body : S -> A -> Prog S)
  (l1 l2 : list A) (s : S) :
  calls h (for_each (l1 ++ l2) body s) =
  calls h (for_each l1 body s)
  ++ match run h (for_each l1 body s) with
     | Ok s' => calls h (for_each l2 body s')
     | Err _ => []
     end.
Proof.
  revert s. induction l1 as [|x l1 IH]; intros s; simpl; [reflexivity|].
  rewrite !calls_bind, run_bind, <- app_assoc. f_equal.
  destruct (run h (body s x)); [apply IH | reflexivity].
Qed.

Lemma calls_for_each_nested (h : Handler) {S : Type}
  (body : S -> Fad.CbsdData -> Prog S)
  (fads : list Fad.FullActivityDump) (s : S) :
  calls h (for_each fads
             (fun s fad => for_each (Fad.getCbsdRecords fad) body s) s)
  = calls h (for_each (all_records fads) body s).
Proof.
  revert s. induction fads as [|fad fads IH]; intros s; [reflexivity|].
  cbn [for_each all_records flat_map].
  rewrite calls_bind, calls_for_each_app. f_equal.
  destruct (run h (for_each (Fad.getCbsdRecords fad) body s));
    [apply IH | reflexivity].
Qed.

Lemma flat_map_seq_succ {B : Type} (f : nat -> list B) (n : nat) :
  flat_map f (seq 1 (S n)) = f 1%nat ++ flat_map (fun k => f (S k)) (seq 1 n).
Proof.
  cbn [seq flat_map]. f_equal.
  rewrite <- seq_shift, flat_map_concat_map, map_map.
  now rewrite <- flat_map_concat_map.
Qed.

Lemma calls_test_harness_loop (h : Handler) (records lst : list Fad.CbsdData)
  (g : option (list CbsdGrantInformation)) :
  forallb (height_in_bounds h) (lst ++ records) = true ->
  calls h (for_each records
             (fun (st : list Fad.CbsdData * option (list CbsdGrantInformation))
                  cbsds =>
                let cbsd_list_th := fst st ++ [cbsds] in
                grant_objects_test_harness <-
                  getAllGrantInformationFromCbsdDataDump cbsd_list_th false ;;
                Ret (cbsd_list_th, Some grant_objects_test_harness))
             (lst, g))
  = flat_map (fun k => terrain_calls (lst ++ firstn k records))
      (seq 1 (List.length records)).
Proof.
  revert lst g. induction records as [|r records IH]; intros lst g Hall;
    [reflexivity|].
  assert (Hpre : forallb (height_in_bounds h) (lst ++ [r]) = true).
  { rewrite forallb_app in *. apply andb_true_iff in Hall.
    destruct Hall as [-> Hall]. simpl in *.
    apply andb_true_iff in Hall. destruct Hall as [-> _]. reflexivity. }
  cbn [for_each List.length fst]. cbv zeta.
  rewrite flat_map_seq_succ. cbn [firstn].
  rewrite !calls_bind, !run_bind.
  rewrite calls_getAllGrantInformationFromCbsdDataDump,
    run_getAllGrantInformationFromCbsdDataDump.
  rewrite (records_processed_all h _ Hpre), Hpre. cbn [run calls].
  rewrite app_nil_r. f_equal.
  rewrite IH by (now rewrite <- app_assoc).
  apply flat_map_ext. intros k. now rewrite <- app_assoc.
Qed.

(** X28: the test-harness records are extracted again and again.
    When every height passes the check, [getGrantObjectsFromFAD] asks
    for the terrain elevations of the dump under test once, and then,
    for each test-harness record in turn, for the elevations of all the
    test-harness records up to that one: a record is looked up once
    more for every record that follows it. *)
Theorem getGrantObjectsFromFAD_calls (h : Handler)
  (sas_uut_fad_object : Fad.FullActivityDump)
  (sas_th_fad_objects : list Fad.FullActivityDump) :
  (forall r, In r (Fad.getCbsdRecords sas_uut_fad_object) ->
             (1 <= height_above_ground h r <= 1000)%R) ->
  (forall r, In r (all_records sas_th_fad_objects) ->
             (1 <= height_above_ground h r <= 1000)%R) ->
  calls h (getGrantObjectsFromFAD sas_uut_fad_object sas_th_fad_objects)
  = terrain_calls (Fad.getCbsdRecords sas_uut_fad_object)
    ++ flat_map
         (fun k => terrain_calls (firstn k (all_records sas_th_fad_objects)))
         (seq 1 (List.length (all_records sas_th_fad_objects))).
Proof.
  intros Huut Hth.
  assert (E1 : forallb (height_in_bounds h)
                 (Fad.getCbsdRecords sas_uut_fad_object) = true).
  { apply forallb_forall. intros r Hin. apply height_in_bounds_iff. auto. }
  assert (E2 : forallb (height_in_bounds h)
                 (all_records sas_th_fad_objects) = true).
  { apply forallb_forall. intros r Hin. apply height_in_bounds_iff. auto. }
  unfold getGrantObjectsFromFAD. cbv zeta.
  rewrite fold_left_append_id, calls_bind.
  rewrite calls_getAllGrantInformationFromCbsdDataDump,
    run_getAllGrantInformationFromCbsdDataDump.
  rewrite (records_processed_all h _ E1), E1. f_equal.
  rewrite calls_bind, calls_for_each_nested, run_for_each_nested.
  pose proof (calls_test_harness_loop h _ [] None E2) as Hcalls.
  pose proof (run_test_harness_loop h (all_records sas_th_fad_objects)
                [] None eq_refl) as Hrun.
  cbv zeta in Hcalls, Hrun. rewrite Hcalls, Hrun, E2.
  cbn [app snd].
  destruct (all_records sas_th_fad_objects); cbn [calls];
    now rewrite app_nil_r.
Qed.

Lemma getGrantObjectsFromFAD_calls_witness :
  calls (const_handler 0 0 0 0)
        (getGrantObjectsFromFAD fad_uut [fad_uut; fad_uut])
  = terrain_calls [record_ok]
    ++ flat_map (fun k => terrain_calls (firstn k [record_ok; record_ok]))
         (seq 1 2).
Proof.
  apply (getGrantObjectsFromFAD_calls (const_handler 0 0 0 0) fad_uut
           [fad_uut; fad_uut]).
  - intros r [<- | []]. unfold height_above_ground. simpl. lra.
  - intros r [<- | [<- | []]]; unfold height_above_ground; simpl; lra.
Defined.
